(** * Taskly front end: router, HTTP wrapper, registration and todo board

    A shallow embedding of [src/routes/route.js], [src/api/http.js] and
    [src/services/userService.js].

    - JavaScript strings are [string]s holding the UTF-8 bytes of the text.
    - JavaScript values that travel through the HTTP wrapper are [jsval]s.
    - [fetch] is a function from the request to what the network answers.
    - Code that can throw returns a [completion]; code that touches the page
      passes the page state explicitly. *)

From Stdlib Require Import String Ascii List ZArith NArith Bool Arith Lia DecimalString.
Import ListNotations.
Open Scope string_scope.
Set Warnings "-register-all".

(* ------------------------------------------------------------------ *)
(** ** String primitives of the platform *)

Module Str.

(** [s.startsWith(p)] *)
Fixpoint startsWith (s p : string) : bool :=
  match p with
  | EmptyString => true
  | String a p' =>
      match s with
      | EmptyString => false
      | String b s' => Ascii.eqb b a && startsWith s' p'
      end
  end.

(** [s.slice(n)] for [0 <= n] *)
Fixpoint slice (n : nat) (s : string) : string :=
  match n, s with
  | O, _ => s
  | S _, EmptyString => EmptyString
  | S k, String _ r => slice k r
  end.

(** [s.includes(needle)] *)
Fixpoint includes (s needle : string) : bool :=
  startsWith s needle ||
  match s with
  | EmptyString => false
  | String _ r => includes r needle
  end.

(** [arr.includes(x)] on an array of strings *)
Definition mem (x : string) (l : list string) : bool := existsb (String.eqb x) l.

Definition bytes (codes : list nat) : string :=
  fold_right (fun n acc => String (ascii_of_nat n) acc) EmptyString codes.

Fixpoint rev (s : string) : string :=
  match s with
  | EmptyString => EmptyString
  | String c r => rev r ++ String c EmptyString
  end.

(** The code points [String.prototype.trim] strips (WhiteSpace and
    LineTerminator of ECMA-262), each as its UTF-8 bytes. *)
Definition whitespace : list string :=
  map bytes
    [ [9]; [10]; [11]; [12]; [13]; [32];            (* TAB LF VT FF CR SP *)
      [194; 160];                                    (* U+00A0 *)
      [225; 154; 128];                               (* U+1680 *)
      [226; 128; 128]; [226; 128; 129]; [226; 128; 130]; [226; 128; 131];
      [226; 128; 132]; [226; 128; 133]; [226; 128; 134]; [226; 128; 135];
      [226; 128; 136]; [226; 128; 137]; [226; 128; 138]; (* U+2000 .. U+200A *)
      [226; 128; 168]; [226; 128; 169];              (* U+2028 U+2029 *)
      [226; 128; 175];                               (* U+202F *)
      [226; 129; 159];                               (* U+205F *)
      [227; 128; 128];                               (* U+3000 *)
      [239; 187; 191] ].                             (* U+FEFF *)

(** The rest of [s] after one leading entry of [table], if it starts with one. *)
Fixpoint strip_one (table : list string) (s : string) : option string :=
  match table with
  | [] => None
  | w :: ws => if startsWith s w then Some (slice (String.length w) s) else strip_one ws s
  end.

Fixpoint strip_all (fuel : nat) (table : list string) (s : string) : string :=
  match fuel with
  | O => s
  | S k =>
      match strip_one table s with
      | Some r => strip_all k table r
      | None => s
      end
  end.

Definition trimStart (s : string) : string :=
  strip_all (String.length s) whitespace s.

Definition trimEnd (s : string) : string :=
  rev (strip_all (String.length s) (map rev whitespace) (rev s)).

(** [s.trim()] *)
Definition trim (s : string) : string := trimEnd (trimStart s).

Definition is_empty (s : string) : bool :=
  match s with EmptyString => true | _ => false end.

(** The double quote and the line feed, for markup literals. *)
Definition dq : string := bytes [34].
Definition nl : string := bytes [10].

End Str.

(* ------------------------------------------------------------------ *)
(** ** JavaScript values *)

Module Js.

(** The values a JSON payload or a request body can hold.  Numbers are
    modelled at their integer values. *)
Inductive jsval : Type :=
| JUndefined
| JNull
| JBool (b : bool)
| JNum (z : Z)
| JStr (s : string)
| JArr (items : list jsval)
| JObj (fields : list (string * jsval)).

(** ToBoolean *)
Definition truthy (v : jsval) : bool :=
  match v with
  | JUndefined | JNull => false
  | JBool b => b
  | JNum z => negb (Z.eqb z 0)
  | JStr s => negb (Str.is_empty s)
  | JArr _ | JObj _ => true
  end.

(** [a || b] *)
Definition or_else (a b : jsval) : jsval := if truthy a then a else b.

Fixpoint lookup (k : string) (fields : list (string * jsval)) : jsval :=
  match fields with
  | [] => JUndefined
  | (k', v) :: rest => if String.eqb k k' then v else lookup k rest
  end.

(** [v?.k] for a key that no built-in prototype defines ([message], [error]):
    [undefined] unless [v] is an object that owns the key. *)
Definition opt_get (v : jsval) (k : string) : jsval :=
  match v with
  | JObj fields => lookup k fields
  | _ => JUndefined
  end.

Definition decimal (z : Z) : string := NilZero.string_of_int (Z.to_int z).

Definition join_with (sep : string) (parts : list string) : string :=
  match parts with
  | [] => EmptyString
  | p :: ps => fold_left (fun acc q => acc ++ sep ++ q) ps p
  end.

(** ToString, as [new Error(msg)] and template literals apply it. *)
Fixpoint to_string (v : jsval) : string :=
  match v with
  | JUndefined => "undefined"
  | JNull => "null"
  | JBool true => "true"
  | JBool false => "false"
  | JNum z => decimal z
  | JStr s => s
  | JArr items =>
      join_with ","
        (map (fun x =>
                match x with
                | JUndefined | JNull => EmptyString
                | _ => to_string x
                end) items)
  | JObj _ => "[object Object]"
  end.

(** What a call evaluates to: a value, or a thrown [Error] with its message. *)
Inductive completion (A : Type) : Type :=
| Returns (a : A)
| Throws (message : string).
Arguments Returns {A} a.
Arguments Throws {A} message.

Definition bind {A B : Type} (c : completion A) (k : A -> completion B) : completion B :=
  match c with
  | Returns a => k a
  | Throws m => Throws m
  end.

Notation "x <- c ;; k" := (bind c (fun x => k))
  (at level 61, c at next level, right associativity).

End Js.

(* ------------------------------------------------------------------ *)
(** ** The network as the code sees it through [fetch] *)

Module Net.
Import Js.

(** What [fetch(url, init)] sends.  [body] is the value whose
    [JSON.stringify] text travels, [None] when [init.body] is [undefined]. *)
Record request : Type := {
  url : string;
  method : string;
  headers : list (string * string);
  body : option jsval }.

(** What the code reads of a [Response]: [res.status], the
    [content-type] header ([None] when [headers.get] gives [null]),
    [res.text()], and [res.json()] ([None] when it rejects). *)
Record response : Type := {
  status : N;
  content_type : option string;
  text : string;
  json : option jsval }.

(** [res.ok]: the status is in the range 200-299. *)
Definition ok (r : response) : bool :=
  ((200 <=? status r) && (status r <=? 299))%N.

(** [await fetch(...)]: a response, or a rejection with its message. *)
Inductive outcome : Type :=
| Responds (r : response)
| Fails (message : string).

End Net.

(* ------------------------------------------------------------------ *)
(** ** [src/api/http.js] *)

Module Http.
Import Js Net.

(** The options object a caller passes.  A key is absent ([None]) or present
    with a value; a present [method] or [headers] may hold [undefined]
    (inner [None]), a present [body] may hold [JUndefined]. *)
Record options : Type := {
  opt_method : option (option string);
  opt_headers : option (option (list (string * string)));
  opt_body : option jsval }.

(** [{}] *)
Definition empty_options : options :=
  {| opt_method := None; opt_headers := None; opt_body := None |}.

(** [{ ...base, ...over }]: the keys of [over] win; spreading [undefined]
    adds nothing. *)
Definition spread_options (base : options) (over : option options) : options :=
  match over with
  | None => base
  | Some o =>
      {| opt_method := match opt_method o with Some m => Some m | None => opt_method base end;
         opt_headers := match opt_headers o with Some h => Some h | None => opt_headers base end;
         opt_body := match opt_body o with Some b => Some b | None => opt_body base end |}
  end.

Fixpoint set_header (k v : string) (hs : list (string * string)) : list (string * string) :=
  match hs with
  | [] => [(k, v)]
  | (k', v') :: rest =>
      if String.eqb k k' then (k, v) :: rest else (k', v') :: set_header k v rest
  end.

(** [{ 'Content-Type': 'application/json', ...headers }] *)
Definition with_content_type (extra : list (string * string)) : list (string * string) :=
  fold_left (fun acc kv => set_header (fst kv) (snd kv) acc) extra
            [("Content-Type", "application/json")].

(** [res.headers.get('content-type')?.includes('application/json')], as the
    condition it is used for. *)
Definition isJSON (res : response) : bool :=
  match content_type res with
  | Some ct => Str.includes ct "application/json"
  | None => false
  end.

(** [isJSON ? await res.json().catch(() => null) : null] *)
Definition payload_of (res : response) : jsval :=
  if isJSON res then match json res with Some v => v | None => JNull end
  else JNull.

(** [`HTTP ${res.status}`] *)
Definition http_status (res : response) : string :=
  "HTTP " ++ NilZero.string_of_uint (N.to_uint (status res)).

Section Client.

(** [import.meta.env.VITE_API_URL] as the template literal prints it, and
    the network. *)
Variable BASE_URL : string.
Variable fetch : request -> outcome.

(** The arguments of the [fetch] call in [request]. *)
Definition outgoing (path : string) (arg : option options) : Net.request :=
  let o := match arg with Some o => o | None => empty_options end in
  let method := match opt_method o with Some (Some m) => m | _ => "GET" end in
  let headers := match opt_headers o with Some (Some h) => h | _ => [] end in
  let body := match opt_body o with Some b => b | None => JUndefined end in
  {| url := BASE_URL ++ path;
     method := method;
     headers := with_content_type headers;
     body := if truthy body then Some body else None |}.

(** [request(path, { method = 'GET', headers = {}, body } = {})]: the request
    it issues and what the call evaluates to. *)
Definition request (path : string) (arg : option options) : Net.request * completion jsval :=
  let sent := outgoing path arg in
  match fetch sent with
  | Fails message => (sent, Throws message)
  | Responds res =>
      let payload := payload_of res in
      if negb (ok res) then
        let msg :=
          or_else (or_else (opt_get payload "message") (opt_get payload "error"))
                  (JStr (http_status res)) in
        (sent, Throws (to_string msg))
      else (sent, Returns payload)
  end.

Definition get (path : string) (opts : option options) :=
  request path
    (Some (spread_options
             {| opt_method := Some (Some "GET"); opt_headers := None; opt_body := None |}
             opts)).

Definition post (path : string) (body : jsval) (opts : option options) :=
  request path
    (Some (spread_options
             {| opt_method := Some (Some "POST"); opt_headers := None; opt_body := Some body |}
             opts)).

Definition put (path : string) (body : jsval) (opts : option options) :=
  request path
    (Some (spread_options
             {| opt_method := Some (Some "PUT"); opt_headers := None; opt_body := Some body |}
             opts)).

Definition del (path : string) (opts : option options) :=
  request path
    (Some (spread_options
             {| opt_method := Some (Some "DELETE"); opt_headers := None; opt_body := None |}
             opts)).

End Client.

End Http.

(* ------------------------------------------------------------------ *)
(** ** [src/services/userService.js] *)

Module UserService.
Import Js Net.

(** The destructured argument of [registerUser]. *)
Record registration : Type := {
  firstName : jsval;
  lastName : jsval;
  age : jsval;
  email : jsval;
  password : jsval;
  confirmPassword : jsval }.

Definition registerUser (BASE_URL : string) (fetch : request -> outcome)
    (r : registration) : request * completion jsval :=
  Http.post BASE_URL fetch "/api/v1/users"
    (JObj [ ("firstName", firstName r); ("lastName", lastName r); ("age", age r);
            ("email", email r); ("password", password r);
            ("confirmPassword", confirmPassword r) ])
    None.

End UserService.

(* ------------------------------------------------------------------ *)
(** ** [src/routes/route.js]: the router *)

Module Router.
Import Js Net.

(** [viewURL(name)], relative to the module. *)
Definition viewURL (name : string) : string := "../views/" ++ name ++ ".html".

Definition known : list string := ["home"; "board"].

(** [(location.hash.startsWith('#/') ? location.hash.slice(2) : '') || 'home'] *)
Definition path (hash : string) : string :=
  let p := if Str.startsWith hash "#/" then Str.slice 2 hash else EmptyString in
  if Str.is_empty p then "home" else p.

(** [known.includes(path) ? path : 'home'] *)
Definition route (hash : string) : string :=
  if Str.mem (path hash) known then path hash else "home".

(** What the router does to the page, in order. *)
Inductive effect : Type :=
| SetAppHTML (html : string)
| CallInitHome
| CallInitBoard
| ConsoleError (message : string).

Definition error_html : string :=
  "<p style=" ++ Str.dq ++ "color:#ffb4b4" ++ Str.dq ++ ">Error loading the view.</p>".

Definition view_request (name : string) : request :=
  {| url := viewURL name; method := "GET"; headers := []; body := None |}.

Section Routing.

Variable fetch : request -> outcome.

(** [loadView(name)]: the effects it performs and how it completes. *)
Definition loadView (name : string) : list effect * completion unit :=
  match fetch (view_request name) with
  | Fails message => ([], Throws message)
  | Responds res =>
      if negb (ok res) then ([], Throws ("Failed to load view: " ++ name))
      else
        let html := text res in
        ( ([SetAppHTML html]
             ++ (if String.eqb name "home" then [CallInitHome] else [])
             ++ (if String.eqb name "board" then [CallInitBoard] else []))%list,
          Returns tt )
  end.

(** [handleRoute()] with [location.hash = hash]. *)
Definition handleRoute (hash : string) : list effect :=
  match loadView (route hash) with
  | (done, Returns _) => done
  | (done, Throws message) => (done ++ [ConsoleError message; SetAppHTML error_html])%list
  end.

End Routing.

End Router.

(* ------------------------------------------------------------------ *)
(** ** What the browser makes of [innerHTML]

    The fragment parser, for the markup the board's template produces: start
    and end tags, attributes (quoted or bare), void elements, text.  Comments,
    character references, raw-text elements and the implied end tags of HTML
    are outside it. *)

Module Html.

Inductive token : Type :=
| TText (s : string)
| TOpen (name : string) (attrs : list (string * string))
| TClose (name : string).

Inductive node : Type :=
| Text (s : string)
| Element (tag : string) (attrs : list (string * string)) (children : list node).

Definition snoc (s : string) (c : ascii) : string := s ++ String c EmptyString.

Definition is_space (c : ascii) : bool :=
  let n := nat_of_ascii c in
  ((n =? 9) || (n =? 10) || (n =? 12) || (n =? 13) || (n =? 32))%nat.

Definition is_letter (c : ascii) : bool :=
  let n := nat_of_ascii c in
  (((65 <=? n) && (n <=? 90)) || ((97 <=? n) && (n <=? 122)))%nat.

Definition lower (c : ascii) : ascii :=
  let n := nat_of_ascii c in
  if ((65 <=? n) && (n <=? 90))%nat then ascii_of_nat (n + 32) else c.

(** A [<] opens a tag when a letter or a [/] follows; otherwise it is text. *)
Definition opens_tag (rest : string) : bool :=
  match rest with
  | String c _ => is_letter c || Ascii.eqb c "/"
  | EmptyString => false
  end.

Inductive attr_mode : Type :=
| ASkip
| AName (n : string)
| AValue (n : string)
| AQuoted (q : ascii) (n v : string)
| ABare (n v : string).

Fixpoint attrs_from (m : attr_mode) (s : string) : list (string * string) :=
  match s with
  | EmptyString =>
      match m with
      | ASkip => []
      | AName n | AValue n => [(n, EmptyString)]
      | AQuoted _ n v | ABare n v => [(n, v)]
      end
  | String c r =>
      match m with
      | ASkip =>
          if is_space c || Ascii.eqb c "/" then attrs_from ASkip r
          else attrs_from (AName (String (lower c) EmptyString)) r
      | AName n =>
          if Ascii.eqb c "=" then attrs_from (AValue n) r
          else if is_space c then (n, EmptyString) :: attrs_from ASkip r
          else attrs_from (AName (snoc n (lower c))) r
      | AValue n =>
          if ((nat_of_ascii c =? 34) || (nat_of_ascii c =? 39))%nat
          then attrs_from (AQuoted c n EmptyString) r
          else if is_space c then attrs_from (AValue n) r
          else attrs_from (ABare n (String c EmptyString)) r
      | AQuoted q n v =>
          if Ascii.eqb c q then (n, v) :: attrs_from ASkip r
          else attrs_from (AQuoted q n (snoc v c)) r
      | ABare n v =>
          if is_space c then (n, v) :: attrs_from ASkip r
          else attrs_from (ABare n (snoc v c)) r
      end
  end.

(** The tag name at the head of a tag's text, lower-cased, and the rest. *)
Fixpoint tag_name (acc : string) (s : string) : string * string :=
  match s with
  | EmptyString => (acc, EmptyString)
  | String c r =>
      if is_space c || Ascii.eqb c "/" then (acc, s)
      else tag_name (snoc acc (lower c)) r
  end.

(** The token for the text between [<] and [>]. *)
Definition tag_token (raw : string) : token :=
  match raw with
  | String "/" r => TClose (fst (tag_name EmptyString r))
  | _ => let (n, rest) := tag_name EmptyString raw in TOpen n (attrs_from ASkip rest)
  end.

Definition text_token (acc : string) : list token :=
  if Str.is_empty acc then [] else [TText acc].

Fixpoint scan (in_tag : bool) (acc : string) (s : string) : list token :=
  match s with
  | EmptyString => if in_tag then [] else text_token acc
  | String c r =>
      if in_tag then
        if Ascii.eqb c ">" then tag_token acc :: scan false EmptyString r
        else scan true (snoc acc c) r
      else
        if Ascii.eqb c "<" && opens_tag r
        then (text_token acc ++ scan true EmptyString r)%list
        else scan false (snoc acc c) r
  end.

Definition tokens (markup : string) : list token := scan false EmptyString markup.

(** Elements that never have children. *)
Definition void : list string := ["input"; "br"; "img"; "hr"; "meta"; "link"].

(** An element still open: its tag, attributes and children so far (newest
    first). *)
Definition frame : Type := (string * list (string * string) * list node)%type.

Definition add_child (n : node) (open : list frame * list node) : list frame * list node :=
  match open with
  | ([], top) => ([], n :: top)
  | ((t, a, kids) :: outer, top) => ((t, a, n :: kids) :: outer, top)
  end.

Definition close_one (open : list frame * list node) : list frame * list node :=
  match open with
  | ([], top) => ([], top)
  | ((t, a, kids) :: outer, top) => add_child (Element t a (List.rev kids)) (outer, top)
  end.

(** How many open elements an end tag [name] closes: down to the nearest
    open element of that name; none when no such element is open. *)
Fixpoint depth_of (name : string) (stack : list frame) : option nat :=
  match stack with
  | [] => None
  | (t, _, _) :: outer =>
      if String.eqb t name then Some 1
      else option_map S (depth_of name outer)
  end.

Fixpoint build (toks : list token) (open : list frame * list node) : list node :=
  match toks with
  | [] => List.rev (snd (Nat.iter (List.length (fst open)) close_one open))
  | TText s :: rest => build rest (add_child (Text s) open)
  | TOpen n a :: rest =>
      if Str.mem n void then build rest (add_child (Element n a []) open)
      else build rest ((n, a, []) :: fst open, snd open)
  | TClose n :: rest =>
      match depth_of n (fst open) with
      | Some d => build rest (Nat.iter d close_one open)
      | None => build rest open
      end
  end.

(** The children an element gets from [el.innerHTML = markup]. *)
Definition parse (markup : string) : list node := build (tokens markup) ([], []).

(** [node.textContent] *)
Fixpoint text_content (n : node) : string :=
  match n with
  | Text s => s
  | Element _ _ kids =>
      (fix all (l : list node) : string :=
         match l with
         | [] => EmptyString
         | k :: ks => text_content k ++ all ks
         end) kids
  end.

(** The first element with the given tag, in document order. *)
Fixpoint find (name : string) (n : node) : option node :=
  match n with
  | Text _ => None
  | Element t _ kids =>
      if String.eqb t name then Some n
      else
        (fix first (l : list node) : option node :=
           match l with
           | [] => None
           | k :: ks => match find name k with Some r => Some r | None => first ks end
           end) kids
  end.

Fixpoint find_in (name : string) (forest : list node) : option node :=
  match forest with
  | [] => None
  | n :: ns => match find name n with Some r => Some r | None => find_in name ns end
  end.

(** [el.querySelector(name)] under an element whose children are [forest]. *)
Definition querySelector (name : string) (forest : list node) : option node :=
  find_in name forest.

Fixpoint attribute (k : string) (attrs : list (string * string)) : option string :=
  match attrs with
  | [] => None
  | (k', v) :: rest => if String.eqb k k' then Some v else attribute k rest
  end.

Definition attrs_of (n : node) : list (string * string) :=
  match n with Text _ => [] | Element _ a _ => a end.

(** The tokens of a class attribute, split on spaces. *)
Fixpoint split_spaces (acc : string) (s : string) : list string :=
  match s with
  | EmptyString => if Str.is_empty acc then [] else [acc]
  | String c r =>
      if is_space c
      then ((if Str.is_empty acc then [] else [acc]) ++ split_spaces EmptyString r)%list
      else split_spaces (snoc acc c) r
  end.

Definition class_list (n : node) : list string :=
  match attribute "class" (attrs_of n) with
  | Some v => split_spaces EmptyString v
  | None => []
  end.


(** No byte of [s] is [<] or [&]: the parser reads [s] as text. *)
Fixpoint plain (s : string) : bool :=
  match s with
  | EmptyString => true
  | String c r => negb (Ascii.eqb c "<") && negb (Ascii.eqb c "&") && plain r
  end.

End Html.

(* ------------------------------------------------------------------ *)
(** ** The page: the elements the initializers look up *)

Module Dom.
Import Js.

(** The registration form: its first [button[type=submit]], by its
    [disabled] flag; [None] when [form.querySelector] finds none. *)
Record form_el : Type := { submit_button : option bool }.

(** The inputs by their [value] and the message paragraph by its
    [textContent]; [None] when [getElementById] gives [null]. *)
Record register_els : Type := {
  username : option string;
  lastName : option string;
  age : option string;
  email : option string;
  password : option string;
  confirmPassword : option string;
  registerMsg : option string }.

(** A child of the todo list: the [li]'s class list, the markup assigned to
    its [innerHTML], and the [checked] state of its checkbox. *)
Record item : Type := {
  classes : list string;
  html : string;
  checked : bool }.

Record document : Type := {
  registerForm : option form_el;
  register : register_els;
  todoForm : option unit;
  newTodo : option string;
  todoList : option (list item) }.

Inductive listener : Type :=
| RegisterSubmit   (* submit on #registerForm *)
| TodoSubmit       (* submit on #todoForm *)
| TodoClick.       (* click on #todoList *)

Record page : Type := {
  doc : document;
  listeners : list listener }.

Definition present {A : Type} (el : option A) : bool :=
  match el with Some _ => true | None => false end.

(** [el.addEventListener(...)]: a [TypeError] when [el] is [null]. *)
Definition addEventListener {A : Type} (el : option A) (l : listener) (p : page)
  : completion page :=
  match el with
  | None => Throws "TypeError: Cannot read properties of null (reading 'addEventListener')"
  | Some _ => Returns {| doc := doc p; listeners := (listeners p ++ [l])%list |}
  end.

(** [initHome()] up to the registration of its handler. *)
Definition initHome (p : page) : completion page :=
  let form := registerForm (doc p) in
  if negb (present form) then Returns p
  else addEventListener form RegisterSubmit p.

(** [initBoard()] up to the registration of its handlers. *)
Definition initBoard (p : page) : completion page :=
  let form := todoForm (doc p) in
  let input := newTodo (doc p) in
  let list := todoList (doc p) in
  if negb (present form) || negb (present input) || negb (present list) then Returns p
  else
    p1 <- addEventListener form TodoSubmit p ;;
    addEventListener list TodoClick p1.

End Dom.

(* ------------------------------------------------------------------ *)
(** ** [initHome]: the submit handler of the registration form *)

Module Home.
Import Js Net Dom.

(** [setTimeout(() => (location.hash = target), delay)] *)
Record timer : Type := { delay : nat; target : string }.

(** What the handler can reach: the form it is attached to, the elements
    [initHome] looked up, [location.hash], the pending timers and the
    requests sent so far. *)
Record state : Type := {
  form : form_el;
  els : register_els;
  hash : string;
  timers : list timer;
  sent : list request }.

Definition set_message (t : string) (st : state) : state :=
  {| form := form st;
     els := {| username := username (els st); lastName := lastName (els st);
               age := age (els st); email := email (els st);
               password := password (els st);
               confirmPassword := confirmPassword (els st);
               registerMsg := Some t |};
     hash := hash st; timers := timers st; sent := sent st |}.

Definition set_disabled (b : bool) (st : state) : state :=
  {| form := {| submit_button := Some b |};
     els := els st; hash := hash st; timers := timers st; sent := sent st |}.

Definition log_request (rq : request) (st : state) : state :=
  {| form := form st; els := els st; hash := hash st; timers := timers st;
     sent := (sent st ++ [rq])%list |}.

Definition setTimeout (target : string) (delay : nat) (st : state) : state :=
  {| form := form st; els := els st; hash := hash st;
     timers := (timers st ++ [{| delay := delay; target := target |}])%list;
     sent := sent st |}.

(** The oldest pending timer fires: its callback assigns [location.hash]. *)
Definition fire (st : state) : state :=
  match timers st with
  | [] => st
  | t :: rest =>
      {| form := form st; els := els st; hash := target t; timers := rest; sent := sent st |}
  end.

(** Every pending timer fires, oldest first. *)
Definition run_timers (st : state) : state :=
  Nat.iter (List.length (timers st)) fire st.

(** [input?.value.trim()] *)
Definition trimmed (input : option string) : jsval :=
  match input with
  | None => JUndefined
  | Some v => JStr (Str.trim v)
  end.

Definition validation_message : string := "Por favor completa usuario y contraseña.".
Definition success_message : string := "Registro exitoso".
Definition failure_prefix : string := "No se pudo registrar: ".

Section Handler.

Variable BASE_URL : string.
Variable fetch : request -> outcome.

(** The submit listener: the state it leaves and how it completes. *)
Definition on_submit (st : state) : state * completion unit :=
  match registerMsg (els st) with
  | None => (st, Throws "TypeError: Cannot set properties of null (setting 'textContent')")
  | Some _ =>
      let st := set_message EmptyString st in
      let firstName := trimmed (username (els st)) in
      let lastName := trimmed (lastName (els st)) in
      let age := trimmed (age (els st)) in
      let email := trimmed (email (els st)) in
      let password := trimmed (password (els st)) in
      let confirmPassword := trimmed (confirmPassword (els st)) in
      if negb (truthy firstName) || negb (truthy password) then
        (set_message validation_message st, Returns tt)
      else
        match submit_button (form st) with
        | None => (st, Throws "TypeError: Cannot set properties of null (setting 'disabled')")
        | Some _ =>
            let st := set_disabled true st in
            let (rq, outcome) :=
              UserService.registerUser BASE_URL fetch
                {| UserService.firstName := firstName;
                   UserService.lastName := lastName;
                   UserService.age := age;
                   UserService.email := email;
                   UserService.password := password;
                   UserService.confirmPassword := confirmPassword |} in
            let st := log_request rq st in
            let st :=
              match outcome with
              | Returns _ => setTimeout "#/board" 400 (set_message success_message st)
              | Throws message => set_message (failure_prefix ++ message) st
              end in
            (set_disabled false st, Returns tt)
        end
  end.

End Handler.

End Home.

(* ------------------------------------------------------------------ *)
(** ** [initBoard]: the handlers of the todo board *)

Module Board.
Import Dom.

(** What the handlers can reach: the text input and the list's children,
    first child first. *)
Record state : Type := {
  input_value : string;
  items : list item }.

(** The template literal assigned to [li.innerHTML]. *)
Definition template (title : string) : string :=
  Str.nl ++
  "      <label>" ++ Str.nl ++
  "        <input type=" ++ Str.dq ++ "checkbox" ++ Str.dq ++
                " class=" ++ Str.dq ++ "check" ++ Str.dq ++ ">" ++ Str.nl ++
  "        <span>" ++ title ++ "</span>" ++ Str.nl ++
  "      </label>" ++ Str.nl ++
  "      <button class=" ++ Str.dq ++ "link remove" ++ Str.dq ++
                " type=" ++ Str.dq ++ "button" ++ Str.dq ++ ">Eliminar</button>" ++ Str.nl ++
  "    ".

(** The [li] the add handler builds.  The checkbox of the template has no
    [checked] attribute, so it starts unchecked. *)
Definition new_item (title : string) : item :=
  {| classes := ["todo"]; html := template title; checked := false |}.

(** The submit listener of [#todoForm]. *)
Definition on_add (st : state) : state :=
  let title := Str.trim (input_value st) in
  if Str.is_empty title then st
  else {| input_value := EmptyString; items := new_item title :: items st |}.

(** The elements of an item a click can land on. *)
Inductive part : Type :=
| PItem        (* the li *)
| PLabel
| PCheckbox    (* input.check *)
| PSpan
| PRemove.     (* button.link.remove *)

(** [e.target]: the list itself, or a part of its [i]-th child. *)
Inductive target : Type :=
| OnList
| Inside (i : nat) (p : part).

Definition own_classes (it : item) (p : part) : list string :=
  match p with
  | PItem => classes it
  | PCheckbox => ["check"]
  | PRemove => ["link"; "remove"]
  | PLabel | PSpan => []
  end.

(** [el.matches('.' + c)] for an element with class list [cls] *)
Definition matches (cls : list string) (c : string) : bool := Str.mem c cls.

(** [e.target.checked]: [undefined] on anything but the checkbox. *)
Definition target_checked (it : item) (p : part) : option bool :=
  match p with
  | PCheckbox => Some (checked it)
  | _ => None
  end.

Definition remove_token (tok : string) (cls : list string) : list string :=
  filter (fun c => negb (String.eqb c tok)) cls.

(** [classList.toggle(tok, force)]; [force = undefined] flips the token. *)
Definition toggle (tok : string) (force : option bool) (cls : list string) : list string :=
  let add := if Str.mem tok cls then cls else (cls ++ [tok])%list in
  match force with
  | Some true => add
  | Some false => remove_token tok cls
  | None => if Str.mem tok cls then remove_token tok cls else add
  end.

Definition with_classes (cls : list string) (it : item) : item :=
  {| classes := cls; html := html it; checked := checked it |}.

Definition remove_at {A : Type} (i : nat) (l : list A) : list A :=
  (firstn i l ++ skipn (S i) l)%list.

Definition replace_at {A : Type} (i : nat) (x : A) (l : list A) : list A :=
  (firstn i l ++ x :: skipn (S i) l)%list.

(** [e.target.closest('.todo')]: the index of the enclosing [li.todo].
    Inside an item only the [li] can carry the class. *)
Definition closest_todo (l : list item) (t : target) : option (nat * item * part) :=
  match t with
  | OnList => None
  | Inside i p =>
      match nth_error l i with
      | Some it => if matches (classes it) "todo" then Some (i, it, p) else None
      | None => None
      end
  end.

(** The click listener of [#todoList]. *)
Definition on_click (t : target) (st : state) : state :=
  match closest_todo (items st) t with
  | None => st
  | Some (i, li, p) =>
      let removed := matches (own_classes li p) "remove" in
      let l1 := if removed then remove_at i (items st) else items st in
      let l2 :=
        if matches (own_classes li p) "check" then
          (* after li.remove() the toggle changes a detached node only *)
          if removed then l1
          else replace_at i
                 (with_classes (toggle "completed" (target_checked li p) (classes li)) li) l1
        else l1 in
      {| input_value := input_value st; items := l2 |}
  end.

(** What the browser does before it dispatches a click on a checkbox: it
    flips the checkbox. *)
Definition activate (t : target) (st : state) : state :=
  match t with
  | Inside i PCheckbox =>
      match nth_error (items st) i with
      | Some it =>
          {| input_value := input_value st;
             items := replace_at i
                        {| classes := classes it; html := html it;
                           checked := negb (checked it) |} (items st) |}
      | None => st
      end
  | _ => st
  end.

(** A click of the user on [t]. *)
Definition click (t : target) (st : state) : state := on_click t (activate t st).

Definition completed (it : item) : bool := matches (classes it) "completed".
Definition is_todo (it : item) : bool := matches (classes it) "todo".

(** The children the parser gives the [li], and what the view shows of them. *)
Definition children (it : item) : list Html.node := Html.parse (html it).

Definition label_text (it : item) : option string :=
  option_map Html.text_content (Html.querySelector "span" (children it)).

End Board.

(* ------------------------------------------------------------------ *)
(** ** Predicates the properties are stated with *)

Module Stated.



(** An options argument that does not set [method] (or no argument at all). *)
Definition leaves_method (opts : option Http.options) : Prop :=
  match opts with
  | None => True
  | Some o => Http.opt_method o = None
  end.

(** The body [http.post] and [http.put] hand to [request]: the positional
    argument, unless the options carry a [body] key of their own. *)
Definition effective_body (body : Js.jsval) (opts : option Http.options) : Js.jsval :=
  match opts with
  | Some o => match Http.opt_body o with Some b => b | None => body end
  | None => body
  end.

(** A field of the registration form is blank: its input is missing, or its
    trimmed value is empty. *)
Definition blank (input : option string) : bool :=
  match input with
  | None => true
  | Some v => Str.is_empty (Str.trim v)
  end.

(** The object the submit handler passes to [registerUser]. *)
Definition submitted (e : Dom.register_els) : UserService.registration :=
  {| UserService.firstName := Home.trimmed (Dom.username e);
     UserService.lastName := Home.trimmed (Dom.lastName e);
     UserService.age := Home.trimmed (Dom.age e);
     UserService.email := Home.trimmed (Dom.email e);
     UserService.password := Home.trimmed (Dom.password e);
     UserService.confirmPassword := Home.trimmed (Dom.confirmPassword e) |}.

(** The markup of the template before and after the interpolated title. *)
Definition before_title : string :=
  Str.nl ++
  "      <label>" ++ Str.nl ++
  "        <input type=" ++ Str.dq ++ "checkbox" ++ Str.dq ++
                " class=" ++ Str.dq ++ "check" ++ Str.dq ++ ">" ++ Str.nl ++
  "        <span>".

Definition after_title : string :=
  "</span>" ++ Str.nl ++
  "      </label>" ++ Str.nl ++
  "      <button class=" ++ Str.dq ++ "link remove" ++ Str.dq ++
                " type=" ++ Str.dq ++ "button" ++ Str.dq ++ ">Eliminar</button>" ++ Str.nl ++
  "    ".

(** The tokens of the template up to the title. *)
Definition tokens_before : list Html.token :=
  [ Html.TText (Str.nl ++ "      "); Html.TOpen "label" [];
    Html.TText (Str.nl ++ "        ");
    Html.TOpen "input" [("type", "checkbox"); ("class", "check")];
    Html.TText (Str.nl ++ "        "); Html.TOpen "span" [] ].

(** The children of a todo item whose label shows [label]: a label holding
    the checkbox and the span, then the remove button, with the template's
    line breaks and indentation as text between them. *)
Definition todo_children (label : list Html.node) : list Html.node :=
  [ Html.Text (Str.nl ++ "      ");
    Html.Element "label" []
      [ Html.Text (Str.nl ++ "        ");
        Html.Element "input" [("type", "checkbox"); ("class", "check")] [];
        Html.Text (Str.nl ++ "        ");
        Html.Element "span" [] label;
        Html.Text (Str.nl ++ "      ") ];
    Html.Text (Str.nl ++ "      ");
    Html.Element "button" [("class", "link remove"); ("type", "button")]
      [ Html.Text "Eliminar" ];
    Html.Text (Str.nl ++ "    ") ].

End Stated.

(* ------------------------------------------------------------------ *)
(** ** Concrete inputs used below *)

Module Samples.
Import Js Net.

Definition base : string := "http://localhost:8080".

Definition respond (code : N) (ct : option string) (body : string) (parsed : option jsval)
  : request -> outcome :=
  fun _ => Responds {| status := code; content_type := ct; text := body; json := parsed |}.

(** A server that answers every request with 404 and a short page. *)
Definition not_found : request -> outcome :=
  respond 404 (Some "text/html") "<h1>Not Found</h1>" None.

(** A server that serves each view's file name as its markup. *)
Definition serves_views : request -> outcome :=
  fun rq => Responds {| status := 200; content_type := Some "text/html";
                        text := "<!-- " ++ url rq ++ " -->"; json := None |}.



(** 201 with the JSON body [{id: 7}]. *)
Definition created : request -> outcome :=
  respond 201 (Some "application/json") EmptyString (Some (JObj [("id", JNum 7)])).

(** 409 with the JSON body [{message: 'X'}]. *)
Definition conflict : request -> outcome :=
  respond 409 (Some "application/json") EmptyString (Some (JObj [("message", JStr "X")])).

(** Options that carry their own method. *)
Definition method_get : Http.options :=
  {| Http.opt_method := Some (Some "GET"); Http.opt_headers := None; Http.opt_body := None |}.

(** Options with an extra header and nothing else. *)
Definition with_token : Http.options :=
  {| Http.opt_method := None;
     Http.opt_headers := Some (Some [("Authorization", "Bearer t")]);
     Http.opt_body := None |}.

(** The inputs of the full registration markup, with the given first name
    and password. *)
Definition filled (name pass : string) : Dom.register_els :=
  {| Dom.username := Some name; Dom.lastName := Some "Lopez"; Dom.age := Some "30";
     Dom.email := Some "ana@example.org"; Dom.password := Some pass;
     Dom.confirmPassword := Some pass; Dom.registerMsg := Some "old message" |}.

Definition home_state (name pass : string) : Home.state :=
  {| Home.form := {| Dom.submit_button := Some false |};
     Home.els := filled name pass;
     Home.hash := "#/home"; Home.timers := []; Home.sent := [] |}.

(** The home view's page with every element, and the empty page. *)
Definition home_page : Dom.page :=
  {| Dom.doc := {| Dom.registerForm := Some {| Dom.submit_button := Some false |};
                   Dom.register := filled "Ana" "secret";
                   Dom.todoForm := None; Dom.newTodo := None; Dom.todoList := None |};
     Dom.listeners := [] |}.

Definition empty_page : Dom.page :=
  {| Dom.doc := {| Dom.registerForm := None;
                   Dom.register :=
                     {| Dom.username := None; Dom.lastName := None; Dom.age := None;
                        Dom.email := None; Dom.password := None;
                        Dom.confirmPassword := None; Dom.registerMsg := None |};
                   Dom.todoForm := None; Dom.newTodo := None; Dom.todoList := None |};
     Dom.listeners := [] |}.

(** A board page whose list is missing. *)
Definition board_without_list : Dom.page :=
  {| Dom.doc := {| Dom.registerForm := None;
                   Dom.register := Dom.register (Dom.doc empty_page);
                   Dom.todoForm := Some tt; Dom.newTodo := Some "Buy milk";
                   Dom.todoList := None |};
     Dom.listeners := [] |}.

(** A board with two items, the second one checked and completed. *)
Definition two_items : Board.state :=
  {| Board.input_value := EmptyString;
     Board.items :=
       [ Board.new_item "Buy milk";
         {| Dom.classes := ["todo"; "completed"];
            Dom.html := Board.template "Call Ana"; Dom.checked := true |} ] |}.

Definition typing (text : string) (l : list Dom.item) : Board.state :=
  {| Board.input_value := text; Board.items := l |}.

End Samples.

(* ------------------------------------------------------------------ *)
(** ** [initRouter] and navigation, with loads that settle later

    [handleRoute] does not wait for [loadView]: a load starts when the route
    changes and writes to the container when its fetch settles, whatever has
    happened in between. *)

Module Navigation.
Import Js Net Router.


(** [location.hash], whether [handleRoute] listens to [hashchange], the
    views whose fetch is under way (oldest first), and the effects so far. *)
Record state : Type := {
  hash : string;
  listening : bool;
  pending : list string;
  done : list effect }.








End Navigation.

(* ------------------------------------------------------------------ *)
(** ** A session on the board: what the user does, step by step *)

Module Session.
Import Dom Board.





End Session.

(* ------------------------------------------------------------------ *)
(** ** Observations used by the further properties *)

Module Observe.
Import Js Net.

(** The value of header [k] in a header object. *)
Fixpoint header (k : string) (hs : list (string * string)) : option string :=
  match hs with
  | [] => None
  | (k', v) :: rest => if String.eqb k k' then Some v else header k rest
  end.

(** The state the submit handler runs in on a page whose document is [d],
    attached to the form [f]. *)
Definition home_state (f : Dom.form_el) (d : Dom.document)
    (hash : string) (timers : list Home.timer) (sent : list request) : Home.state :=
  {| Home.form := f; Home.els := Dom.register d;
     Home.hash := hash; Home.timers := timers; Home.sent := sent |}.

(** The request a registration with the inputs [e] sends. *)
Definition registration_request (BASE_URL : string) (e : Dom.register_els) : request :=
  {| url := BASE_URL ++ "/api/v1/users";
     method := "POST";
     headers := [("Content-Type", "application/json")];
     body := Some (JObj [ ("firstName", Home.trimmed (Dom.username e));
                          ("lastName", Home.trimmed (Dom.lastName e));
                          ("age", Home.trimmed (Dom.age e));
                          ("email", Home.trimmed (Dom.email e));
                          ("password", Home.trimmed (Dom.password e));
                          ("confirmPassword", Home.trimmed (Dom.confirmPassword e)) ]) |}.


(** The same click one child further down the list. *)
Definition shifted (t : Board.target) : Board.target :=
  match t with
  | Board.OnList => Board.OnList
  | Board.Inside i p => Board.Inside (S i) p
  end.

(** Text made only of spaces, tabs and line breaks (TAB, LF, VT, FF, CR, SP). *)
Definition blank_char (c : ascii) : bool :=
  let n := nat_of_ascii c in
  ((n =? 9) || (n =? 10) || (n =? 11) || (n =? 12) || (n =? 13) || (n =? 32))%nat.

Fixpoint only_blanks (s : string) : bool :=
  match s with
  | EmptyString => true
  | String c r => blank_char c && only_blanks r
  end.

(** Sample inputs. *)
Definition offline : request -> outcome := fun _ => Fails "Failed to fetch".

Definition unavailable : request -> outcome :=
  Samples.respond 503 (Some "text/html") "<h1>Service Unavailable</h1>" None.

Definition json_headers : Http.options :=
  {| Http.opt_method := None;
     Http.opt_headers := Some (Some [("Content-Type", "text/plain"); ("X-Trace", "1")]);
     Http.opt_body := None |}.

Definition undefined_method : Http.options :=
  {| Http.opt_method := Some None; Http.opt_headers := None; Http.opt_body := None |}.

Definition no_button (name pass : string) : Home.state :=
  {| Home.form := {| Dom.submit_button := None |};
     Home.els := Samples.filled name pass;
     Home.hash := "#/home"; Home.timers := []; Home.sent := [] |}.

Definition form_without_message : Dom.page :=
  {| Dom.doc := {| Dom.registerForm := Some {| Dom.submit_button := Some false |};
                   Dom.register :=
                     {| Dom.username := Some "Ana"; Dom.lastName := None; Dom.age := None;
                        Dom.email := None; Dom.password := Some "secret";
                        Dom.confirmPassword := None; Dom.registerMsg := None |};
                   Dom.todoForm := None; Dom.newTodo := None; Dom.todoList := None |};
     Dom.listeners := [] |}.

Definition board_page : Dom.page :=
  {| Dom.doc := {| Dom.registerForm := None;
                   Dom.register := Dom.register (Dom.doc Samples.empty_page);
                   Dom.todoForm := Some tt; Dom.newTodo := Some EmptyString;
                   Dom.todoList := Some [] |};
     Dom.listeners := [] |}.



(** 500 with the JSON body [{message: []}]. *)
Definition array_message : request -> outcome :=
  Samples.respond 500 (Some "application/json") EmptyString
                  (Some (JObj [("message", JArr [])])).

End Observe.

(* ================================================================== *)
(** * Properties *)

(** ** Strings *)

Lemma is_empty_true (s : string) : Str.is_empty s = true <-> s = EmptyString.
Proof. destruct s; simpl; split; intro H; congruence. Qed.

Lemma is_empty_false (s : string) : Str.is_empty s = false <-> s <> EmptyString.
Proof. destruct s; simpl; split; intro H; congruence. Qed.

Lemma slice_length (n : nat) (s : string) :
  String.length (Str.slice n s) = String.length s - n.
Proof.
  revert s. induction n as [|n IH]; intros s.
  - simpl. lia.
  - destruct s as [|c r]; simpl; [reflexivity | apply IH].
Qed.

Lemma startsWith_length (s w : string) :
  Str.startsWith s w = true -> String.length w <= String.length s.
Proof.
  revert s. induction w as [|a w IH]; intros s H; simpl.
  - lia.
  - destruct s as [|b r]; simpl in H; [discriminate|].
    apply andb_true_iff in H as [_ H].
    simpl. apply IH in H. lia.
Qed.

(** Stripping one entry of a table without empty entries shortens the string. *)
Lemma strip_one_shorter (table : list string) (s r : string) :
  Forall (fun w => w <> EmptyString) table ->
  Str.strip_one table s = Some r ->
  String.length r < String.length s.
Proof.
  intros Hne. induction Hne as [|w ws Hw _ IH]; simpl; intro H.
  - discriminate.
  - destruct (Str.startsWith s w) eqn:Hp.
    + injection H as <-. rewrite slice_length.
      apply startsWith_length in Hp.
      destruct w; [congruence|]. simpl in *. lia.
    + apply IH, H.
Qed.

(** The fuel [trimStart] and [trimEnd] give [strip_all] is enough: nothing
    of the table is left at the head of the result. *)
Lemma strip_all_done (table : list string) :
  Forall (fun w => w <> EmptyString) table ->
  forall fuel s, String.length s <= fuel ->
  Str.strip_one table (Str.strip_all fuel table s) = None.
Proof.
  intros Hne fuel. induction fuel as [|k IH]; intros s Hlen; simpl.
  - destruct s; [|simpl in Hlen; lia].
    clear Hlen. induction Hne as [|w ws Hw _ IHt]; simpl; [reflexivity|].
    destruct w; [congruence|]. simpl. exact IHt.
  - destruct (Str.strip_one table s) as [r|] eqn:Hs; [|exact Hs].
    apply IH. pose proof (strip_one_shorter _ _ _ Hne Hs). lia.
Qed.

Lemma whitespace_nonempty : Forall (fun w => w <> EmptyString) Str.whitespace.
Proof. unfold Str.whitespace. repeat constructor; discriminate. Qed.

Lemma trimStart_done (s : string) :
  Str.strip_one Str.whitespace (Str.trimStart s) = None.
Proof. apply strip_all_done; [apply whitespace_nonempty | lia]. Qed.

Lemma length_append (a b : string) :
  String.length (a ++ b) = String.length a + String.length b.
Proof. induction a as [|c a IH]; cbn; [reflexivity|]. rewrite IH. reflexivity. Qed.

Lemma length_rev (s : string) : String.length (Str.rev s) = String.length s.
Proof.
  induction s as [|c s IH]; cbn; [reflexivity|].
  rewrite length_append, IH. cbn. lia.
Qed.

Lemma rev_snoc (s : string) (c : ascii) :
  Str.rev (s ++ String c EmptyString) = String c (Str.rev s).
Proof. induction s as [|a s IH]; cbn; [reflexivity|]. rewrite IH. reflexivity. Qed.

Lemma rev_involutive (s : string) : Str.rev (Str.rev s) = s.
Proof.
  induction s as [|c s IH]; cbn; [reflexivity|].
  rewrite rev_snoc, IH. reflexivity.
Qed.

Lemma reversed_whitespace_nonempty :
  Forall (fun w => w <> EmptyString) (map Str.rev Str.whitespace).
Proof. unfold Str.whitespace. cbn. repeat constructor; discriminate. Qed.

(** Read backwards, the result of [trimEnd] starts with no whitespace. *)
Lemma trimEnd_done (s : string) :
  Str.strip_one (map Str.rev Str.whitespace) (Str.rev (Str.trimEnd s)) = None.
Proof.
  unfold Str.trimEnd. rewrite rev_involutive.
  apply strip_all_done; [apply reversed_whitespace_nonempty|].
  rewrite length_rev. lia.
Qed.

Example trim_spaces : Str.trim "   " = EmptyString.
Proof. reflexivity. Qed.

Example trim_keeps_inner : Str.trim "  Buy milk  " = "Buy milk".
Proof. reflexivity. Qed.

(* ------------------------------------------------------------------ *)
(** ** Lists: removing and replacing a child *)

Section ListFacts.
Context {A : Type}.
Implicit Types (l : list A) (i j : nat).

Lemma tl_skipn (n : nat) l : tl (skipn n l) = skipn (S n) l.
Proof.
  revert l. induction n as [|n IH]; intros [|a l]; try reflexivity.
  cbn [skipn]. rewrite IH. reflexivity.
Qed.




Lemma nth_error_replace_at_eq l i (x : A) :
  i < List.length l -> nth_error (Board.replace_at i x l) i = Some x.
Proof.
  intro H. unfold Board.replace_at.
  rewrite nth_error_app2 by (rewrite length_firstn; lia).
  rewrite length_firstn.
  replace (i - Nat.min i (List.length l)) with 0 by lia. reflexivity.
Qed.

Lemma nth_error_replace_at_ne l i j (x : A) :
  i < List.length l -> j <> i ->
  nth_error (Board.replace_at i x l) j = nth_error l j.
Proof.
  intros Hi H. unfold Board.replace_at.
  destruct (Nat.lt_ge_cases j i) as [Hj|Hj].
  - rewrite nth_error_app1 by (rewrite length_firstn; lia).
    rewrite nth_error_firstn.
    destruct (Nat.ltb_spec j i); [reflexivity | lia].
  - rewrite nth_error_app2 by (rewrite length_firstn; lia).
    rewrite length_firstn.
    replace (j - Nat.min i (List.length l)) with (S (j - S i)) by lia.
    cbn [nth_error]. rewrite nth_error_skipn. f_equal. lia.
Qed.

Lemma Forall_skipn (P : A -> Prop) l i : Forall P l -> Forall P (skipn i l).
Proof.
  intro H. rewrite <- (firstn_skipn i l) in H.
  apply Forall_app in H. exact (proj2 H).
Qed.

Lemma Forall_remove_at (P : A -> Prop) l i :
  Forall P l -> Forall P (Board.remove_at i l).
Proof.
  intro H. unfold Board.remove_at. apply Forall_app. split.
  - rewrite <- (firstn_skipn i l) in H. apply Forall_app in H. exact (proj1 H).
  - apply Forall_skipn, H.
Qed.

Lemma Forall_replace_at (P : A -> Prop) l i (x : A) :
  Forall P l -> P x -> Forall P (Board.replace_at i x l).
Proof.
  intros H Hx. pose proof (Forall_remove_at P l i H) as Hr.
  unfold Board.remove_at in Hr. apply Forall_app in Hr as [H1 H2].
  unfold Board.replace_at. apply Forall_app. split; [exact H1|].
  constructor; assumption.
Qed.

Lemma length_replace_at l i (x : A) :
  i < List.length l -> List.length (Board.replace_at i x l) = List.length l.
Proof.
  intro H. unfold Board.replace_at.
  rewrite length_app, length_firstn. cbn [List.length]. rewrite length_skipn. lia.
Qed.

End ListFacts.

(* ------------------------------------------------------------------ *)
(** ** The router *)

Section RouterFacts.
Import Js Net Router.

Lemma mem_known (p : string) :
  Str.mem p known = String.eqb p "home" || String.eqb p "board".
Proof. unfold Str.mem, known. simpl. rewrite orb_false_r. reflexivity. Qed.

(** The route is [board] exactly when the requested path is. *)
Lemma route_of_path (hash : string) :
  route hash = if String.eqb (path hash) "board" then "board" else "home".
Proof.
  unfold route. rewrite mem_known.
  destruct (String.eqb (path hash) "home") eqn:Hh.
  - apply String.eqb_eq in Hh. rewrite Hh. reflexivity.
  - simpl. destruct (String.eqb (path hash) "board") eqn:Hb; [|reflexivity].
    apply String.eqb_eq in Hb. exact Hb.
Qed.

Lemma path_board (hash : string) :
  String.eqb (path hash) "board" = String.eqb hash "#/board".
Proof.
  unfold path.
  destruct hash as [|c1 [|c2 r]].
  - reflexivity.
  - cbn [Str.startsWith String.eqb].
    destruct (Ascii.eqb c1 "#"); reflexivity.
  - cbn [Str.startsWith String.eqb].
    destruct (Ascii.eqb c1 "#"); [|reflexivity].
    destruct (Ascii.eqb c2 "/"); [|reflexivity].
    cbn [andb Str.slice]. destruct r; reflexivity.
Qed.

Lemma route_spec (hash : string) :
  route hash = if String.eqb hash "#/board" then "board" else "home".
Proof. rewrite route_of_path, path_board. reflexivity. Qed.

End RouterFacts.

Section RouterClaims.
Import Js Net Router.

(** C1 (as amended).  Every location fragment resolves to one view name:
    [#/board] to [board], anything else to [home].  When the fetch of that
    view's markup answers with a success status, the container receives the
    fetched markup and exactly that view's initializer runs; when it answers
    with another status or rejects, the error is logged, the container
    receives the fixed error paragraph and no initializer runs. *)
Theorem handleRoute_renders_resolved_view
    (fetch : request -> outcome) (hash : string) :
  route hash = (if String.eqb hash "#/board" then "board" else "home") /\
  handleRoute fetch hash =
    match fetch (view_request (route hash)) with
    | Responds res =>
        if ok res
        then [ SetAppHTML (text res);
               if String.eqb hash "#/board" then CallInitBoard else CallInitHome ]
        else [ ConsoleError ("Failed to load view: " ++ route hash);
               SetAppHTML error_html ]
    | Fails message => [ ConsoleError message; SetAppHTML error_html ]
    end.
Proof.
  split; [apply route_spec|].
  unfold handleRoute, loadView. cbv zeta.
  destruct (fetch (view_request (route hash))) as [res|m]; [|reflexivity].
  destruct (ok res); [|reflexivity].
  rewrite route_spec.
  destruct (String.eqb hash "#/board"); reflexivity.
Qed.

(** C1 as stated fails when the view cannot be fetched: at [#/board] with a
    server answering 404 the container does not receive the fetched text and
    [initBoard] is not invoked. *)
Lemma handleRoute_failed_fetch :
  route "#/board" = "board" /\
  Samples.not_found (view_request "board")
    = Responds {| status := 404; content_type := Some "text/html";
                  text := "<h1>Not Found</h1>"; json := None |} /\
  handleRoute Samples.not_found "#/board"
    = [ ConsoleError "Failed to load view: board"; SetAppHTML error_html ] /\
  handleRoute Samples.not_found "#/board"
    <> [ SetAppHTML "<h1>Not Found</h1>"; CallInitBoard ].
Proof. repeat split; try reflexivity. discriminate. Qed.

Example route_home : route "#/home" = "home".
Proof. reflexivity. Qed.

Example route_empty : route EmptyString = "home".
Proof. reflexivity. Qed.

Example route_bare_prefix : route "#/" = "home".
Proof. reflexivity. Qed.

Example route_no_slash : route "#board" = "home".
Proof. reflexivity. Qed.

Example route_served :
  handleRoute Samples.serves_views "#/home"
    = [ SetAppHTML "<!-- ../views/home.html -->"; CallInitHome ].
Proof. reflexivity. Qed.

End RouterClaims.

(* ------------------------------------------------------------------ *)
(** ** The HTTP wrapper *)

Section HttpClaims.
Import Js Net Http.

Variable BASE_URL : string.
Variable fetch : Net.request -> outcome.

(** Whatever the network answers, [request] issues exactly the request
    [outgoing] describes. *)
Lemma request_sent (path : string) (arg : option options) :
  fst (request BASE_URL fetch path arg) = outgoing BASE_URL path arg.
Proof.
  unfold request. cbv zeta.
  destruct (fetch (outgoing BASE_URL path arg)) as [res|m]; [|reflexivity].
  destruct (negb (ok res)); reflexivity.
Qed.

Lemma request_on_response (path : string) (arg : option options) (res : response) :
  fetch (outgoing BASE_URL path arg) = Responds res ->
  snd (request BASE_URL fetch path arg) =
    if ok res then Returns (payload_of res)
    else Throws (to_string
                   (or_else (or_else (opt_get (payload_of res) "message")
                                     (opt_get (payload_of res) "error"))
                            (JStr (http_status res)))).
Proof.
  intro H. unfold request. cbv zeta. rewrite H.
  destruct (ok res); reflexivity.
Qed.

Lemma request_on_failure (path : string) (arg : option options) (m : string) :
  fetch (outgoing BASE_URL path arg) = Fails m ->
  snd (request BASE_URL fetch path arg) = Throws m.
Proof. intro H. unfold request. cbv zeta. rewrite H. reflexivity. Qed.


(** C3.  On a response in the success range the wrapper returns: the parsed
    payload when the content type names JSON and the body parses, [null]
    when the content type does not name JSON or the body does not parse. *)
Theorem request_success_payload
    (path : string) (arg : option options) (res : response) :
  fetch (outgoing BASE_URL path arg) = Responds res ->
  ok res = true ->
  (forall v, isJSON res = true -> json res = Some v ->
     snd (request BASE_URL fetch path arg) = Returns v)
  /\ (isJSON res = false \/ json res = None ->
      snd (request BASE_URL fetch path arg) = Returns JNull).
Proof.
  intros Hres Hok.
  rewrite (request_on_response _ _ _ Hres), Hok. unfold payload_of.
  split.
  - intros v Hj Hb. rewrite Hj, Hb. reflexivity.
  - intros [Hj|Hb].
    + rewrite Hj. reflexivity.
    + rewrite Hb. destruct (isJSON res); reflexivity.
Qed.

(** C6 (as amended).  With an options argument that does not set [method]
    (or none), [get], [post], [put] and [del] issue GET, POST, PUT and DELETE
    to [BASE_URL + path]; [post] and [put] take the body as their second
    argument, before the options, and send it when it is truthy (a [body]
    key in the options replaces it). *)
Theorem verbs_bind_methods
    (path : string) (body : jsval) (opts : option options) :
  Stated.leaves_method opts ->
  Net.method (fst (get BASE_URL fetch path opts)) = "GET"
  /\ Net.method (fst (post BASE_URL fetch path body opts)) = "POST"
  /\ Net.method (fst (put BASE_URL fetch path body opts)) = "PUT"
  /\ Net.method (fst (del BASE_URL fetch path opts)) = "DELETE"
  /\ Net.body (fst (post BASE_URL fetch path body opts))
      = (if truthy (Stated.effective_body body opts)
         then Some (Stated.effective_body body opts) else None)
  /\ Net.body (fst (put BASE_URL fetch path body opts))
      = (if truthy (Stated.effective_body body opts)
         then Some (Stated.effective_body body opts) else None)
  /\ Net.url (fst (post BASE_URL fetch path body opts)) = BASE_URL ++ path.
Proof.
  intro H. unfold get, post, put, del. rewrite !request_sent.
  destruct opts as [o|]; cbn in H.
  - unfold outgoing, spread_options, Stated.effective_body. cbn. rewrite H.
    destruct (opt_body o); repeat split; reflexivity.
  - repeat split; reflexivity.
Qed.

End HttpClaims.



Lemma request_success_payload_witness :
  Net.ok {| Net.status := 201; Net.content_type := Some "application/json";
            Net.text := EmptyString;
            Net.json := Some (Js.JObj [("id", Js.JNum 7)]) |} = true
  /\ snd (Http.request Samples.base Samples.created "/api/v1/users" None)
     = Js.Returns (Js.JObj [("id", Js.JNum 7)]).
Proof.
  split; [reflexivity|].
  exact (proj1 (request_success_payload Samples.base Samples.created
                  "/api/v1/users" None _ eq_refl eq_refl)
               _ eq_refl eq_refl).
Defined.

(** C6 as stated fails on options that set [method]: [http.del] then issues
    that method, not DELETE. *)
Lemma del_with_method_option :
  Net.method (fst (Http.del Samples.base Samples.created "/api/v1/users/7"
                     (Some Samples.method_get))) = "GET"
  /\ Net.method (fst (Http.post Samples.base Samples.created "/api/v1/users"
                       (Js.JObj []) (Some Samples.method_get))) = "GET".
Proof. split; reflexivity. Qed.

Lemma verbs_bind_methods_witness :
  Stated.leaves_method (Some Samples.with_token)
  /\ Net.method (fst (Http.del Samples.base Samples.created "/api/v1/users/7"
                       (Some Samples.with_token))) = "DELETE"
  /\ Net.body (fst (Http.post Samples.base Samples.created "/api/v1/users"
                     (Js.JObj [("firstName", Js.JStr "Ana")]) (Some Samples.with_token)))
     = Some (Js.JObj [("firstName", Js.JStr "Ana")]).
Proof.
  pose proof (verbs_bind_methods Samples.base Samples.created "/api/v1/users/7"
                (Js.JObj []) (Some Samples.with_token) eq_refl) as Hdel.
  pose proof (verbs_bind_methods Samples.base Samples.created "/api/v1/users"
                (Js.JObj [("firstName", Js.JStr "Ana")]) (Some Samples.with_token)
                eq_refl) as Hpost.
  split; [reflexivity|]. split.
  - exact (proj1 (proj2 (proj2 (proj2 Hdel)))).
  - exact (proj1 (proj2 (proj2 (proj2 (proj2 Hpost))))).
Defined.

(* ------------------------------------------------------------------ *)
(** ** The registration form *)

Section HomeClaims.
Import Js Net Dom Home.

Variable BASE_URL : string.
Variable fetch : Net.request -> outcome.

Lemma truthy_trimmed (input : option string) :
  truthy (trimmed input) = negb (Stated.blank input).
Proof. destruct input; reflexivity. Qed.

(** Without [#registerMsg] the handler throws on its first assignment and
    changes nothing. *)
Lemma on_submit_without_message (st : state) :
  registerMsg (els st) = None ->
  fst (on_submit BASE_URL fetch st) = st /\
  exists m, snd (on_submit BASE_URL fetch st) = Throws m.
Proof.
  intro H. unfold on_submit. rewrite H. split; [reflexivity|].
  eexists. reflexivity.
Qed.

(** C4.  A submission whose trimmed first name or trimmed password is blank
    sends no request and leaves the form, with its submit button, the route
    and the timers as they were; on a page with the [#registerMsg] paragraph
    the handler returns and the paragraph shows the validation message. *)
Theorem blank_submission_sends_nothing (st : state) :
  Stated.blank (username (els st)) = true \/ Stated.blank (password (els st)) = true ->
  sent (fst (on_submit BASE_URL fetch st)) = sent st
  /\ form (fst (on_submit BASE_URL fetch st)) = form st
  /\ hash (fst (on_submit BASE_URL fetch st)) = hash st
  /\ timers (fst (on_submit BASE_URL fetch st)) = timers st
  /\ (forall m, registerMsg (els st) = Some m ->
        snd (on_submit BASE_URL fetch st) = Returns tt
        /\ registerMsg (els (fst (on_submit BASE_URL fetch st)))
           = Some validation_message).
Proof.
  intros Hblank. unfold on_submit.
  destruct (registerMsg (els st)) as [m0|] eqn:Hmsg.
  - cbv zeta. cbn [set_message els username password].
    rewrite !truthy_trimmed.
    assert (Hc : negb (negb (Stated.blank (username (els st))))
                 || negb (negb (Stated.blank (password (els st)))) = true).
    { destruct Hblank as [H|H]; rewrite H; [reflexivity | apply orb_true_r]. }
    rewrite Hc. repeat split; reflexivity.
  - repeat split; try reflexivity; congruence.
Qed.

Lemma fire_step (st : state) (t : timer) (rest : list timer) :
  timers st = t :: rest ->
  hash (fire st) = target t /\ timers (fire st) = rest.
Proof. intro H. unfold fire. rewrite H. split; reflexivity. Qed.

Lemma timers_fire (st : state) : timers (fire st) = tl (timers st).
Proof.
  unfold fire. destruct (timers st) eqn:H; [rewrite H|]; reflexivity.
Qed.

Lemma timers_iter_fire (n : nat) (st : state) :
  timers (Nat.iter n fire st) = skipn n (timers st).
Proof.
  induction n as [|n IH]; [reflexivity|].
  cbn [Nat.iter nat_rect]. fold (Nat.iter n fire st).
  rewrite timers_fire, IH. apply tl_skipn.
Qed.

(** Once all timers have fired, the route is the one the last timer set. *)
Lemma run_timers_last (st : state) (ts : list timer) (t : timer) :
  timers st = (ts ++ [t])%list ->
  hash (run_timers st) = target t.
Proof.
  intro H. unfold run_timers. rewrite H, length_app. cbn [List.length].
  replace (List.length ts + 1) with (S (List.length ts)) by lia.
  cbn [Nat.iter nat_rect]. fold (Nat.iter (List.length ts) fire st).
  apply (fire_step _ t []).
  rewrite timers_iter_fire, H, skipn_app, skipn_all, Nat.sub_diag.
  reflexivity.
Qed.

(** C5.  A submission that passes validation calls [registerUser] once.  If
    the call resolves (as it does on every response with a success status),
    the message becomes the success message and a timer of 400 ms is set
    whose firing changes the route to [#/board]; if it rejects with message
    [X], the message becomes [No se pudo registrar: X], and route and timers
    stay as they were.  Either way the submit button ends enabled. *)
Theorem valid_submission_outcome (st : state) (m : string) (b : bool) :
  registerMsg (els st) = Some m ->
  submit_button (form st) = Some b ->
  Stated.blank (username (els st)) = false ->
  Stated.blank (password (els st)) = false ->
  let call := UserService.registerUser BASE_URL fetch (Stated.submitted (els st)) in
  let st' := fst (on_submit BASE_URL fetch st) in
  snd (on_submit BASE_URL fetch st) = Returns tt
  /\ sent st' = (sent st ++ [fst call])%list
  /\ submit_button (form st') = Some false
  /\ (forall data, snd call = Returns data ->
        registerMsg (els st') = Some success_message
        /\ hash st' = hash st
        /\ timers st' = (timers st ++ [{| delay := 400; target := "#/board" |}])%list
        /\ hash (run_timers st') = "#/board")
  /\ (forall X, snd call = Throws X ->
        registerMsg (els st') = Some (failure_prefix ++ X)
        /\ hash st' = hash st
        /\ timers st' = timers st)
  /\ (forall res, fetch (fst call) = Responds res -> ok res = true ->
        exists data, snd call = Returns data).
Proof.
  intros Hmsg Hbtn Hname Hpass call st'.
  assert (Hrun : on_submit BASE_URL fetch st =
    ( set_disabled false
        (match snd call with
         | Returns _ =>
             setTimeout "#/board" 400
               (set_message success_message
                  (log_request (fst call) (set_disabled true (set_message EmptyString st))))
         | Throws X =>
             set_message (failure_prefix ++ X)
               (log_request (fst call) (set_disabled true (set_message EmptyString st)))
         end),
      Returns tt )).
  { unfold on_submit. rewrite Hmsg. cbv zeta.
    cbn [set_message els username password lastName age email confirmPassword form].
    rewrite !truthy_trimmed, Hname, Hpass, Hbtn. cbn [negb orb].
    fold (Stated.submitted (els st)). fold call.
    destruct call as [rq [data|X]]; reflexivity. }
  subst st'. rewrite Hrun. cbn [fst snd].
  split; [reflexivity|].
  split; [destruct (snd call); reflexivity|].
  split; [destruct (snd call); reflexivity|].
  split; [|split].
  - intros data Hd. rewrite Hd. repeat split; try reflexivity.
    apply (run_timers_last _ (timers st) {| delay := 400; target := "#/board" |}).
    reflexivity.
  - intros X HX. rewrite HX. repeat split; reflexivity.
  - intros res Hres Hok. subst call.
    unfold UserService.registerUser, Http.post in *.
    rewrite request_sent in Hres.
    rewrite (request_on_response _ _ _ _ _ Hres), Hok. eexists. reflexivity.
Qed.

End HomeClaims.

Lemma blank_submission_sends_nothing_witness :
  Stated.blank (Dom.username (Home.els (Samples.home_state "   " "secret"))) = true
  /\ Home.sent (fst (Home.on_submit Samples.base Samples.created
                       (Samples.home_state "   " "secret"))) = []
  /\ Dom.submit_button
       (Home.form (fst (Home.on_submit Samples.base Samples.created
                          (Samples.home_state "   " "secret"))))
     = Some false
  /\ Dom.registerMsg
       (Home.els (fst (Home.on_submit Samples.base Samples.created
                         (Samples.home_state "   " "secret"))))
     = Some Home.validation_message.
Proof.
  pose proof (blank_submission_sends_nothing Samples.base Samples.created
                (Samples.home_state "   " "secret") (or_introl eq_refl)) as H.
  destruct H as (Hsent & Hform & _ & _ & Hmsg).
  split; [reflexivity|].
  split; [exact Hsent|].
  split; [rewrite Hform; reflexivity|].
  exact (proj2 (Hmsg "old message" eq_refl)).
Defined.

Lemma valid_submission_outcome_witness :
  Stated.blank (Dom.username (Home.els (Samples.home_state "Ana" "secret"))) = false
  /\ Dom.registerMsg
       (Home.els (fst (Home.on_submit Samples.base Samples.created
                         (Samples.home_state "Ana" "secret"))))
     = Some "Registro exitoso"
  /\ Home.hash (Home.run_timers
                  (fst (Home.on_submit Samples.base Samples.created
                          (Samples.home_state "Ana" "secret")))) = "#/board"
  /\ Dom.registerMsg
       (Home.els (fst (Home.on_submit Samples.base Samples.conflict
                         (Samples.home_state "Ana" "secret"))))
     = Some "No se pudo registrar: X"
  /\ Home.hash (fst (Home.on_submit Samples.base Samples.conflict
                       (Samples.home_state "Ana" "secret"))) = "#/home".
Proof.
  pose proof (valid_submission_outcome Samples.base Samples.created
                (Samples.home_state "Ana" "secret") "old message" false
                eq_refl eq_refl eq_refl eq_refl) as Hok.
  pose proof (valid_submission_outcome Samples.base Samples.conflict
                (Samples.home_state "Ana" "secret") "old message" false
                eq_refl eq_refl eq_refl eq_refl) as Hko.
  cbv zeta in Hok, Hko.
  destruct Hok as (_ & _ & _ & Hok & _ & _).
  destruct Hko as (_ & _ & _ & _ & Hko & _).
  specialize (Hok (Js.JObj [("id", Js.JNum 7)]) eq_refl).
  specialize (Hko "X" eq_refl).
  split; [reflexivity|].
  split; [exact (proj1 Hok)|].
  split; [exact (proj2 (proj2 (proj2 Hok)))|].
  split; [exact (proj1 Hko)|].
  exact (proj1 (proj2 Hko)).
Defined.

(* ------------------------------------------------------------------ *)
(** ** The initializers *)

Section InitClaims.
Import Js Dom.

Lemma initHome_returns (p : page) :
  initHome p = Returns p \/
  initHome p = Returns {| doc := doc p; listeners := (listeners p ++ [RegisterSubmit])%list |}.
Proof.
  unfold initHome. cbv zeta.
  destruct (registerForm (doc p)); [right|left]; reflexivity.
Qed.

Lemma initBoard_returns (p : page) :
  initBoard p = Returns p \/
  initBoard p =
    Returns {| doc := doc p;
               listeners := ((listeners p ++ [TodoSubmit]) ++ [TodoClick])%list |}.
Proof.
  unfold initBoard. cbv zeta.
  destruct (todoForm (doc p)), (newTodo (doc p)), (todoList (doc p));
    (left; reflexivity) || (right; reflexivity).
Qed.

(** C7.  On every page, whichever of their elements are missing, [initHome]
    and [initBoard] return without throwing and leave the document as it
    was, and so does a second invocation.  When [#registerForm] is missing
    [initHome] does nothing at all; when any of [#todoForm], [#newTodo] or
    [#todoList] is missing [initBoard] does nothing at all. *)
Theorem initializers_safe (p : page) :
  (exists p1 p2, initHome p = Returns p1 /\ initHome p1 = Returns p2
                 /\ doc p1 = doc p /\ doc p2 = doc p)
  /\ (exists p1 p2, initBoard p = Returns p1 /\ initBoard p1 = Returns p2
                    /\ doc p1 = doc p /\ doc p2 = doc p)
  /\ (registerForm (doc p) = None -> initHome p = Returns p)
  /\ (todoForm (doc p) = None \/ newTodo (doc p) = None \/ todoList (doc p) = None ->
      initBoard p = Returns p).
Proof.
  split; [|split; [|split]].
  - destruct (initHome_returns p) as [H1|H1]; rewrite H1;
      match goal with |- exists p1 p2, Returns ?q = _ /\ _ =>
        destruct (initHome_returns q) as [H2|H2];
        eexists; eexists; (split; [reflexivity|]); (split; [exact H2|]);
        split; reflexivity
      end.
  - destruct (initBoard_returns p) as [H1|H1]; rewrite H1;
      match goal with |- exists p1 p2, Returns ?q = _ /\ _ =>
        destruct (initBoard_returns q) as [H2|H2];
        eexists; eexists; (split; [reflexivity|]); (split; [exact H2|]);
        split; reflexivity
      end.
  - intro H. unfold initHome. rewrite H. reflexivity.
  - intro H. unfold initBoard. cbv zeta.
    destruct H as [H|[H|H]]; rewrite H; cbn [present negb orb];
      rewrite ?orb_true_r; reflexivity.
Qed.

(** On the full markup a second invocation registers the handler again. *)
Lemma initHome_twice_registers_twice (p p1 p2 : page) (f : form_el) :
  registerForm (doc p) = Some f ->
  initHome p = Returns p1 -> initHome p1 = Returns p2 ->
  listeners p2 = (listeners p ++ [RegisterSubmit; RegisterSubmit])%list.
Proof.
  unfold initHome. cbv zeta. intros Hf. rewrite Hf. cbn.
  intros [= <-]. cbn. rewrite Hf. cbn. intros [= <-]. cbn.
  rewrite <- app_assoc. reflexivity.
Qed.

Example initHome_on_full_markup :
  initHome Samples.home_page
  = Returns {| doc := doc Samples.home_page; listeners := [RegisterSubmit] |}
  /\ initBoard Samples.home_page = Returns Samples.home_page.
Proof. split; reflexivity. Qed.

End InitClaims.

Lemma initializers_safe_witness :
  Dom.todoList (Dom.doc Samples.board_without_list) = None
  /\ Dom.initBoard Samples.board_without_list = Js.Returns Samples.board_without_list
  /\ Dom.initHome Samples.empty_page = Js.Returns Samples.empty_page.
Proof.
  split; [reflexivity|]. split.
  - exact (proj2 (proj2 (proj2 (initializers_safe Samples.board_without_list)))
                 (or_intror (or_intror eq_refl))).
  - exact (proj1 (proj2 (proj2 (initializers_safe Samples.empty_page))) eq_refl).
Defined.

(* ------------------------------------------------------------------ *)
(** ** The todo board *)

Section ClassFacts.
Import Board.

Lemma mem_app_single (tok : string) (cls : list string) :
  Str.mem tok (cls ++ [tok]) = true.
Proof.
  unfold Str.mem. rewrite existsb_app. cbn. rewrite String.eqb_refl.
  apply orb_true_iff. right. reflexivity.
Qed.

Lemma mem_remove_token (c tok : string) (cls : list string) :
  Str.mem c (remove_token tok cls) = Str.mem c cls && negb (String.eqb c tok).
Proof.
  unfold Str.mem, remove_token.
  induction cls as [|x xs IH]; [reflexivity|].
  cbn [filter existsb].
  destruct (String.eqb_spec x tok) as [->|Hx]; cbn [negb].
  - rewrite IH. destruct (String.eqb c tok); cbn [negb];
      rewrite ?andb_true_r, ?andb_false_r; reflexivity.
  - cbn [existsb]. rewrite IH.
    destruct (String.eqb_spec c x) as [->|Hc]; cbn [orb]; [|reflexivity].
    rewrite (proj2 (String.eqb_neq x tok) Hx). reflexivity.
Qed.

Lemma mem_snoc_other (c tok : string) (cls : list string) :
  c <> tok -> Str.mem c (cls ++ [tok]) = Str.mem c cls.
Proof.
  intro H. unfold Str.mem. rewrite existsb_app. cbn.
  rewrite (proj2 (String.eqb_neq c tok) H). rewrite !orb_false_r. reflexivity.
Qed.

(** [classList.toggle(tok, force)] with a boolean [force] leaves the token
    present exactly when [force] is true. *)
Lemma toggle_forced (tok : string) (force : bool) (cls : list string) :
  matches (toggle tok (Some force) cls) tok = force.
Proof.
  unfold matches, toggle. destruct force.
  - destruct (Str.mem tok cls) eqn:H; [exact H | apply mem_app_single].
  - rewrite mem_remove_token, String.eqb_refl. apply andb_false_r.
Qed.

(** ... and never touches another token. *)
Lemma toggle_other (c tok : string) (force : option bool) (cls : list string) :
  c <> tok -> matches (toggle tok force cls) c = matches cls c.
Proof.
  intro H. unfold matches, toggle.
  assert (Hr : Str.mem c (remove_token tok cls) = Str.mem c cls).
  { rewrite mem_remove_token, (proj2 (String.eqb_neq c tok) H). apply andb_true_r. }
  assert (Ha : Str.mem c (if Str.mem tok cls then cls else (cls ++ [tok])%list)
               = Str.mem c cls).
  { destruct (Str.mem tok cls); [reflexivity | apply mem_snoc_other, H]. }
  destruct force as [[|]|]; [exact Ha | exact Hr |].
  destruct (Str.mem tok cls) eqn:Hm; [exact Hr|].
  apply mem_snoc_other, H.
Qed.

End ClassFacts.

Section BoardClaims.
Import Dom Board.

Lemma closest_of_todo (l : list item) (i : nat) (p : part) (it : item) :
  nth_error l i = Some it -> is_todo it = true ->
  closest_todo l (Inside i p) = Some (i, it, p).
Proof.
  intros Hn Ht. unfold closest_todo. rewrite Hn.
  unfold is_todo in Ht. rewrite Ht. reflexivity.
Qed.


(** A click on the checkbox of a todo item replaces that child by one whose
    class list went through [toggle]. *)
Lemma on_click_check (st : state) (i : nat) (it : item) :
  nth_error (items st) i = Some it -> is_todo it = true ->
  on_click (Inside i PCheckbox) st
    = {| input_value := input_value st;
         items := replace_at i
                    (with_classes (toggle "completed" (Some (checked it)) (classes it)) it)
                    (items st) |}.
Proof.
  intros Hn Ht. unfold on_click. rewrite (closest_of_todo _ _ _ _ Hn Ht).
  reflexivity.
Qed.


(** The click listener keeps every child of the list a todo item. *)
Lemma on_click_keeps_todos (t : target) (st : state) :
  Forall (fun it => is_todo it = true) (items st) ->
  Forall (fun it => is_todo it = true) (items (on_click t st)).
Proof.
  intro H. unfold on_click.
  destruct (closest_todo (items st) t) as [[[i li] p]|] eqn:Hc; [|exact H].
  assert (Hli : is_todo li = true).
  { unfold closest_todo in Hc. destruct t as [|k q]; [discriminate|].
    destruct (nth_error (items st) k) as [it|]; [|discriminate].
    destruct (matches (classes it) "todo") eqn:Hm; [|discriminate].
    injection Hc as _ <- _. exact Hm. }
  cbn [items].
  destruct (matches (own_classes li p) "remove");
    destruct (matches (own_classes li p) "check");
    try (apply Forall_remove_at; exact H); try exact H.
  apply Forall_replace_at; [exact H|].
  unfold is_todo, with_classes. cbn [classes].
  rewrite toggle_other by discriminate. exact Hli.
Qed.


(** The same for the user's click, which first flips the checkbox: the
    [completed] class then follows the new state of the checkbox. *)
Lemma click_checkbox_follows (st : state) (i : nat) (it : item) :
  nth_error (items st) i = Some it ->
  is_todo it = true ->
  exists it',
    nth_error (items (click (Inside i PCheckbox) st)) i = Some it'
    /\ checked it' = negb (checked it)
    /\ completed it' = checked it'
    /\ forall j, j <> i ->
         nth_error (items (click (Inside i PCheckbox) st)) j = nth_error (items st) j.
Proof.
  intros Hn Ht.
  assert (Hi : i < List.length (items st)).
  { apply nth_error_Some. rewrite Hn. discriminate. }
  unfold click, activate. rewrite Hn.
  set (flipped := {| classes := classes it; html := html it;
                     checked := negb (checked it) |}).
  set (st1 := {| input_value := input_value st;
                 items := replace_at i flipped (items st) |}).
  assert (Hn1 : nth_error (items st1) i = Some flipped)
    by (apply nth_error_replace_at_eq, Hi).
  assert (Hlen : i < List.length (items st1))
    by (unfold st1; cbn [items]; rewrite length_replace_at; assumption).
  rewrite (on_click_check st1 i flipped Hn1 Ht). cbn [items].
  eexists. split; [apply nth_error_replace_at_eq, Hlen|].
  split; [reflexivity|].
  split; [apply toggle_forced|].
  intros j Hj. rewrite nth_error_replace_at_ne by assumption.
  unfold st1. cbn [items]. apply nth_error_replace_at_ne; assumption.
Qed.

End BoardClaims.


(* ------------------------------------------------------------------ *)
(** ** The markup of a todo item *)

Section MarkupClaims.
Import Dom Board.

Lemma append_empty (s : string) : s ++ EmptyString = s.
Proof. induction s as [|c s IH]; cbn; [reflexivity|]. rewrite IH. reflexivity. Qed.

Lemma append_snoc (acc : string) (c : ascii) (t : string) :
  Html.snoc acc c ++ t = acc ++ String c t.
Proof.
  unfold Html.snoc. induction acc as [|a acc IH]; cbn; [reflexivity|].
  rewrite IH. reflexivity.
Qed.

(** The title goes into the markup as it is. *)
Lemma template_split (title : string) :
  template title = Stated.before_title ++ title ++ Stated.after_title.
Proof. reflexivity. Qed.

(** Text without [<] is accumulated byte by byte. *)
Lemma scan_plain (t : string) : forall acc rest,
  Html.plain t = true ->
  Html.scan false acc (t ++ rest) = Html.scan false (acc ++ t) rest.
Proof.
  induction t as [|c t IH]; intros acc rest Hp.
  - cbn [append]. rewrite append_empty. reflexivity.
  - cbn [Html.plain] in Hp. apply andb_true_iff in Hp as [Hc Ht].
    apply andb_true_iff in Hc as [Hlt _].
    cbn [append Html.scan].
    apply negb_true_iff in Hlt. rewrite Hlt. cbn [andb].
    rewrite IH by assumption. rewrite append_snoc. reflexivity.
Qed.

(** Whatever follows, the markup before the title scans to the same tokens. *)
Lemma scan_before (rest : string) :
  Html.scan false EmptyString (Stated.before_title ++ rest)
  = (Stated.tokens_before ++ Html.scan false EmptyString rest)%list.
Proof. reflexivity. Qed.


(** A title that is plain text becomes the single text child of the span. *)
Lemma parse_template_plain (title : string) :
  Html.plain title = true -> title <> EmptyString ->
  Html.parse (template title) = Stated.todo_children [Html.Text title].
Proof.
  intros Hp Hne. unfold Html.parse, Html.tokens.
  rewrite template_split, scan_before, scan_plain by assumption.
  destruct title as [|a t]; [congruence|]. reflexivity.
Qed.

(** The classes the click handler tests are those the template gives the
    checkbox and the remove button; label and span carry none. *)
Lemma template_classes (title : string) :
  Html.plain title = true -> title <> EmptyString ->
  let kids := children (new_item title) in
  option_map Html.class_list (Html.querySelector "input" kids)
    = Some (own_classes (new_item title) PCheckbox)
  /\ option_map Html.class_list (Html.querySelector "button" kids)
     = Some (own_classes (new_item title) PRemove)
  /\ option_map Html.class_list (Html.querySelector "label" kids)
     = Some (own_classes (new_item title) PLabel)
  /\ option_map Html.class_list (Html.querySelector "span" kids)
     = Some (own_classes (new_item title) PSpan).
Proof.
  intros Hp Hne kids. subst kids. unfold children. cbn [html new_item].
  rewrite (parse_template_plain _ Hp Hne). repeat split; reflexivity.
Qed.



(** C10.  The add handler puts the trimmed title into the item's markup
    unescaped.  The title [<b>x</b>] is accepted, and the span of the item
    it creates holds a [b] element: its text content is [x], not the title. *)
Theorem title_markup_is_parsed :
  (forall title,
     html (new_item title) = Stated.before_title ++ title ++ Stated.after_title)
  /\ (forall l,
        on_add (Samples.typing "<b>x</b>" l)
        = {| input_value := EmptyString; items := new_item "<b>x</b>" :: l |})
  /\ children (new_item "<b>x</b>")
     = Stated.todo_children [Html.Element "b" [] [Html.Text "x"]]
  /\ label_text (new_item "<b>x</b>") = Some "x"
  /\ label_text (new_item "<b>x</b>") <> Some "<b>x</b>".
Proof.
  split; [intro title; reflexivity|].
  split; [intro l; reflexivity|].
  split; [reflexivity|].
  split; [reflexivity|].
  discriminate.
Qed.

(** The handlers keep every child of the list a todo item. *)
Lemma on_add_keeps_todos (st : state) :
  Forall (fun it => is_todo it = true) (items st) ->
  Forall (fun it => is_todo it = true) (items (on_add st)).
Proof.
  intro H. unfold on_add.
  destruct (Str.is_empty (Str.trim (input_value st))); [exact H|].
  cbn [items]. constructor; [reflexivity | exact H].
Qed.

End MarkupClaims.


(* ================================================================== *)
(** * Further properties *)

(** ** The HTTP wrapper: headers, method defaults, content type *)

Section HeaderFacts.
Import Http Observe.

Lemma header_set_same (k v : string) (hs : list (string * string)) :
  header k (set_header k v hs) = Some v.
Proof.
  induction hs as [|[k' v'] rest IH]; cbn [set_header header].
  - rewrite String.eqb_refl. reflexivity.
  - destruct (String.eqb k k') eqn:E; cbn [header].
    + rewrite String.eqb_refl. reflexivity.
    + rewrite E. exact IH.
Qed.

Lemma header_set_other (k k0 v : string) (hs : list (string * string)) :
  k <> k0 -> header k (set_header k0 v hs) = header k hs.
Proof.
  intro Hne. induction hs as [|[k' v'] rest IH]; cbn [set_header header].
  - rewrite (proj2 (String.eqb_neq k k0) Hne). reflexivity.
  - destruct (String.eqb_spec k0 k') as [<-|Hk]; cbn [header].
    + rewrite (proj2 (String.eqb_neq k k0) Hne). reflexivity.
    + rewrite IH. reflexivity.
Qed.

Lemma header_absent (k : string) (hs : list (string * string)) :
  ~ In k (map fst hs) -> header k hs = None.
Proof.
  induction hs as [|[k' v'] rest IH]; cbn [map fst In header]; intro H.
  - reflexivity.
  - destruct (String.eqb_spec k k') as [->|Hk]; [exfalso; apply H; left; reflexivity|].
    apply IH. intro Hin. apply H. right. exact Hin.
Qed.

Lemma header_present (k v : string) (hs : list (string * string)) :
  NoDup (map fst hs) -> In (k, v) hs -> header k hs = Some v.
Proof.
  induction hs as [|[k' v'] rest IH]; cbn [map fst In header]; intros Hnd Hin.
  - contradiction.
  - inversion Hnd as [|? ? Hnotin Hnd']; subst.
    destruct Hin as [[= -> ->]|Hin].
    + rewrite String.eqb_refl. reflexivity.
    + destruct (String.eqb_spec k k') as [->|Hk].
      * exfalso. apply Hnotin. apply (in_map fst) in Hin. exact Hin.
      * apply IH; assumption.
Qed.

(** Spreading [extra] over the headers [acc]: a key of [extra] takes its
    value there, any other key keeps the value it had. *)
Lemma header_spread (k : string) (extra : list (string * string)) :
  NoDup (map fst extra) ->
  forall acc,
  header k (fold_left (fun acc kv => set_header (fst kv) (snd kv) acc) extra acc)
  = match header k extra with Some v => Some v | None => header k acc end.
Proof.
  induction extra as [|[k1 v1] rest IH]; intros Hnd acc; cbn [fold_left header fst snd].
  - reflexivity.
  - inversion Hnd as [|? ? Hnotin Hnd']; subst.
    rewrite (IH Hnd').
    destruct (String.eqb_spec k k1) as [->|Hk].
    + rewrite (header_absent _ _ Hnotin). apply header_set_same.
    + rewrite (header_set_other _ _ _ _ Hk). reflexivity.
Qed.

End HeaderFacts.

Section HttpFurther.
Import Js Net Http Observe.

Variable BASE_URL : string.
Variable fetch : Net.request -> outcome.

(** X1.  The headers [request] sends are the caller's headers over the
    default: every header the caller gives goes out with the caller's value
    (also [Content-Type], matched by its exact spelling), [Content-Type] is
    [application/json] when the caller gives none, and nothing else is sent. *)
Theorem request_headers_merge
    (path : string) (o : options) (extra : list (string * string)) :
  opt_headers o = Some (Some extra) ->
  NoDup (map fst extra) ->
  (forall k v, In (k, v) extra ->
     header k (Net.headers (fst (request BASE_URL fetch path (Some o)))) = Some v)
  /\ (~ In "Content-Type" (map fst extra) ->
      header "Content-Type" (Net.headers (fst (request BASE_URL fetch path (Some o))))
      = Some "application/json")
  /\ (forall k, k <> "Content-Type" -> ~ In k (map fst extra) ->
      header k (Net.headers (fst (request BASE_URL fetch path (Some o)))) = None).
Proof.
  intros Ho Hnd. rewrite request_sent. unfold outgoing. cbv zeta. rewrite Ho.
  cbn [Net.headers]. unfold with_content_type.
  split; [|split].
  - intros k v Hin. rewrite (header_spread _ _ Hnd).
    rewrite (header_present _ _ _ Hnd Hin). reflexivity.
  - intro Hnot. rewrite (header_spread _ _ Hnd), (header_absent _ _ Hnot).
    reflexivity.
  - intros k Hk Hnot. rewrite (header_spread _ _ Hnd), (header_absent _ _ Hnot).
    cbn [header]. rewrite (proj2 (String.eqb_neq k "Content-Type") Hk). reflexivity.
Qed.

(** X2.  Options that carry [method: undefined] undo the verb: the spread
    puts [undefined] over it and the default of [request] applies, so
    [get], [post], [put] and [del] all issue GET. *)
Theorem undefined_method_issues_get
    (path : string) (body : jsval) (o : options) :
  opt_method o = Some None ->
  Net.method (fst (get BASE_URL fetch path (Some o))) = "GET"
  /\ Net.method (fst (post BASE_URL fetch path body (Some o))) = "GET"
  /\ Net.method (fst (put BASE_URL fetch path body (Some o))) = "GET"
  /\ Net.method (fst (del BASE_URL fetch path (Some o))) = "GET".
Proof.
  intro H. unfold get, post, put, del. rewrite !request_sent.
  unfold outgoing, spread_options. cbn. rewrite H. repeat split; reflexivity.
Qed.

End HttpFurther.

Lemma request_headers_merge_witness :
  NoDup (map fst [("Content-Type", "text/plain"); ("X-Trace", "1")])
  /\ Observe.header "Content-Type"
       (Net.headers (fst (Http.request Samples.base Samples.created "/api/v1/users"
                            (Some Observe.json_headers))))
     = Some "text/plain"
  /\ Observe.header "Accept"
       (Net.headers (fst (Http.request Samples.base Samples.created "/api/v1/users"
                            (Some Observe.json_headers))))
     = None.
Proof.
  assert (Hnd : NoDup (map fst [("Content-Type", "text/plain"); ("X-Trace", "1")])).
  { cbn. constructor.
    - intros [H|[]]. discriminate H.
    - constructor; [intros [] | constructor]. }
  pose proof (request_headers_merge Samples.base Samples.created "/api/v1/users"
                Observe.json_headers _ eq_refl Hnd) as H.
  split; [exact Hnd|]. split.
  - apply (proj1 H). left. reflexivity.
  - apply (proj2 (proj2 H)).
    + discriminate.
    + cbn. intros [E|[E|[]]]; discriminate E.
Defined.

Lemma undefined_method_issues_get_witness :
  Http.opt_method Observe.undefined_method = Some None
  /\ Net.method (fst (Http.del Samples.base Samples.created "/api/v1/users/7"
                       (Some Observe.undefined_method))) = "GET".
Proof.
  split; [reflexivity|].
  exact (proj2 (proj2 (proj2 (undefined_method_issues_get Samples.base Samples.created
                                 "/api/v1/users/7" Js.JNull Observe.undefined_method
                                 eq_refl)))).
Defined.

Section SubstringFacts.

Lemma startsWith_iff (s p : string) :
  Str.startsWith s p = true <-> exists b, s = p ++ b.
Proof.
  revert s. induction p as [|a p IH]; intros s.
  - split; [intros _; exists s; reflexivity | intros _; destruct s; reflexivity].
  - destruct s as [|c s]; cbn [Str.startsWith].
    + split; [discriminate | intros [b Hb]; discriminate Hb].
    + rewrite andb_true_iff, IH. split.
      * intros [Hc [b ->]]. apply Ascii.eqb_eq in Hc. subst c. exists b. reflexivity.
      * intros [b Hb]. cbn in Hb. injection Hb as -> ->.
        split; [apply Ascii.eqb_refl | exists b; reflexivity].
Qed.

(** [includes] is the substring test. *)
Lemma includes_iff (s needle : string) :
  Str.includes s needle = true <-> exists a b, s = a ++ needle ++ b.
Proof.
  split.
  - induction s as [|c s IH]; cbn [Str.includes]; intro H;
      apply orb_true_iff in H as [H|H].
    + apply startsWith_iff in H as [b ->]. exists EmptyString, b. reflexivity.
    + discriminate.
    + apply startsWith_iff in H as [b ->]. exists EmptyString, b. reflexivity.
    + destruct (IH H) as (a & b & ->). exists (String c a), b. reflexivity.
  - intros (a & b & ->). induction a as [|c a IH].
    + cbn [append].
      assert (H : Str.startsWith (needle ++ b) needle = true)
        by (apply startsWith_iff; exists b; reflexivity).
      destruct (needle ++ b); cbn [Str.includes]; rewrite H; reflexivity.
    + cbn [append Str.includes]. rewrite IH. apply orb_true_r.
Qed.

End SubstringFacts.

Section ContentTypeFacts.
Import Js Net Http.

Variable BASE_URL : string.
Variable fetch : Net.request -> outcome.

(** X3.  A body that parses to something other than [null] is returned from
    a success response exactly when the [content-type] header contains
    [application/json] somewhere, in this spelling; a missing header, or one
    in another spelling, gives [null]. *)
Theorem json_recognised_by_substring
    (path : string) (arg : option options) (res : response) (v : jsval) :
  fetch (outgoing BASE_URL path arg) = Responds res ->
  ok res = true ->
  json res = Some v ->
  v <> JNull ->
  (snd (request BASE_URL fetch path arg) = Returns v
   <-> exists a b, content_type res = Some (a ++ "application/json" ++ b))
  /\ (snd (request BASE_URL fetch path arg) = Returns v
      \/ snd (request BASE_URL fetch path arg) = Returns JNull).
Proof.
  intros Hres Hok Hjson Hv.
  rewrite (request_on_response _ _ _ _ _ Hres), Hok.
  unfold payload_of, isJSON. rewrite Hjson.
  destruct (content_type res) as [ct|].
  - destruct (Str.includes ct "application/json") eqn:Hi.
    + split; [|left; reflexivity].
      split; [|reflexivity]. intros _.
      apply includes_iff in Hi as (a & b & ->). exists a, b. reflexivity.
    + split; [|right; reflexivity].
      split.
      * intros [= E]. exfalso. apply Hv. symmetry. exact E.
      * intros (a & b & [= ->]).
        assert (Ht : Str.includes (a ++ "application/json" ++ b) "application/json" = true)
          by (apply includes_iff; exists a, b; reflexivity).
        exfalso. exact (eq_true_false_abs _ Ht Hi).
  - split; [|right; reflexivity].
    split.
    + intros [= E]. exfalso. apply Hv. symmetry. exact E.
    + intros (a & b & Hc). discriminate Hc.
Qed.

Lemma string_of_uint_nonempty (d : Decimal.uint) :
  NilZero.string_of_uint d <> EmptyString.
Proof. destruct d; discriminate. Qed.

Lemma decimal_nonempty (z : Z) : decimal z <> EmptyString.
Proof.
  unfold decimal. destruct (Z.to_int z) as [d|d]; cbn.
  - apply string_of_uint_nonempty.
  - discriminate.
Qed.

(** A truthy value whose string form is empty is an array. *)
Lemma empty_string_form (v : jsval) :
  truthy v = true -> to_string v = EmptyString -> exists items, v = JArr items.
Proof.
  destruct v as [| |b|z|s|items|fields]; cbn [truthy to_string]; intros Ht Hs;
    try discriminate.
  - destruct b; discriminate.
  - exfalso. exact (decimal_nonempty z Hs).
  - subst s. discriminate.
  - exists items. reflexivity.
Qed.

(** X4.  The error thrown for a response outside the success range has a
    non-empty message, unless the server's [message] or [error] field is an
    array. *)
Theorem error_message_nonempty
    (path : string) (arg : option options) (res : response) :
  fetch (outgoing BASE_URL path arg) = Responds res ->
  ok res = false ->
  snd (request BASE_URL fetch path arg) = Throws EmptyString ->
  exists items,
    opt_get (payload_of res) "message" = JArr items
    \/ opt_get (payload_of res) "error" = JArr items.
Proof.
  intros Hres Hok. rewrite (request_on_response _ _ _ _ _ Hres), Hok.
  unfold or_else.
  destruct (truthy (opt_get (payload_of res) "message")) eqn:Hm; cbv iota.
  - rewrite Hm. intros [= E].
    destruct (empty_string_form _ Hm E) as [items Hi]. exists items. left. exact Hi.
  - destruct (truthy (opt_get (payload_of res) "error")) eqn:He; cbv iota.
    + intros [= E].
      destruct (empty_string_form _ He E) as [items Hi]. exists items. right. exact Hi.
    + intros [= E].
Qed.

End ContentTypeFacts.

Lemma json_recognised_by_substring_witness :
  Net.ok {| Net.status := 201; Net.content_type := Some "application/json";
            Net.text := EmptyString;
            Net.json := Some (Js.JObj [("id", Js.JNum 7)]) |} = true
  /\ snd (Http.request Samples.base Samples.created "/api/v1/users" None)
     = Js.Returns (Js.JObj [("id", Js.JNum 7)]).
Proof.
  split; [reflexivity|].
  apply (proj1 (json_recognised_by_substring Samples.base Samples.created
                  "/api/v1/users" None _ (Js.JObj [("id", Js.JNum 7)])
                  eq_refl eq_refl eq_refl ltac:(discriminate))).
  exists EmptyString, EmptyString. reflexivity.
Defined.

Lemma error_message_nonempty_witness :
  snd (Http.request Samples.base Observe.array_message "/api/v1/users" None)
    = Js.Throws EmptyString
  /\ exists items,
       Js.opt_get (Js.JObj [("message", Js.JArr [])]) "message" = Js.JArr items
       \/ Js.opt_get (Js.JObj [("message", Js.JArr [])]) "error" = Js.JArr items.
Proof.
  split; [reflexivity|].
  exact (error_message_nonempty Samples.base Observe.array_message "/api/v1/users" None
           _ eq_refl eq_refl eq_refl).
Defined.

(* ------------------------------------------------------------------ *)
(** ** The registration form, end to end *)

Section HomeFurther.
Import Js Net Dom Home Observe.

Variable BASE_URL : string.
Variable fetch : Net.request -> outcome.

(** The request of a registration is fixed by the inputs alone. *)
Lemma registerUser_sent (e : register_els) :
  fst (UserService.registerUser BASE_URL fetch (Stated.submitted e))
  = registration_request BASE_URL e.
Proof.
  unfold UserService.registerUser, Http.post. rewrite request_sent. reflexivity.
Qed.

(** A submission that passes validation on a page with message paragraph and
    submit button runs the handler to its end. *)
Lemma on_submit_valid (st : state) (m : string) (b : bool) :
  registerMsg (els st) = Some m ->
  submit_button (form st) = Some b ->
  Stated.blank (username (els st)) = false ->
  Stated.blank (password (els st)) = false ->
  on_submit BASE_URL fetch st =
    ( set_disabled false
        (match snd (UserService.registerUser BASE_URL fetch (Stated.submitted (els st))) with
         | Returns _ =>
             setTimeout "#/board" 400
               (set_message success_message
                  (log_request (registration_request BASE_URL (els st))
                     (set_disabled true (set_message EmptyString st))))
         | Throws X =>
             set_message (failure_prefix ++ X)
               (log_request (registration_request BASE_URL (els st))
                  (set_disabled true (set_message EmptyString st)))
         end),
      Returns tt ).
Proof.
  intros Hmsg Hbtn Hname Hpass.
  rewrite <- registerUser_sent.
  unfold on_submit. rewrite Hmsg. cbv zeta.
  cbn [set_message els username password lastName age email confirmPassword form].
  rewrite !truthy_trimmed, Hname, Hpass, Hbtn. cbn [negb orb].
  fold (Stated.submitted (els st)).
  destruct (UserService.registerUser BASE_URL fetch (Stated.submitted (els st)))
    as [rq [data|X]]; reflexivity.
Qed.

(** X5.  A valid submission sends exactly one request: POST to
    [BASE_URL + /api/v1/users], with the JSON content type and the six
    fields, each trimmed, as body (a field whose input is missing is
    [undefined]). *)
Theorem registration_sends_the_form (st : state) (m : string) (b : bool) :
  registerMsg (els st) = Some m ->
  submit_button (form st) = Some b ->
  Stated.blank (username (els st)) = false ->
  Stated.blank (password (els st)) = false ->
  sent (fst (on_submit BASE_URL fetch st))
  = (sent st ++
     [ {| url := BASE_URL ++ "/api/v1/users";
          method := "POST";
          headers := [("Content-Type", "application/json")];
          body := Some (JObj [ ("firstName", trimmed (username (els st)));
                               ("lastName", trimmed (lastName (els st)));
                               ("age", trimmed (age (els st)));
                               ("email", trimmed (email (els st)));
                               ("password", trimmed (password (els st)));
                               ("confirmPassword", trimmed (confirmPassword (els st))) ]) |} ])%list.
Proof.
  intros Hmsg Hbtn Hname Hpass.
  rewrite (on_submit_valid _ _ _ Hmsg Hbtn Hname Hpass). cbn [fst].
  destruct (snd (UserService.registerUser BASE_URL fetch (Stated.submitted (els st))));
    reflexivity.
Qed.

(** X6.  What the form shows when a valid registration fails: the network's
    own message when the fetch rejects, [HTTP <status>] when the server
    answers outside the success range without JSON.  No timer is set, the
    route stays, and the submit button is enabled again. *)
Theorem registration_failure_message (st : state) (m : string) (b : bool) :
  registerMsg (els st) = Some m ->
  submit_button (form st) = Some b ->
  Stated.blank (username (els st)) = false ->
  Stated.blank (password (els st)) = false ->
  (forall reason, fetch (registration_request BASE_URL (els st)) = Fails reason ->
     registerMsg (els (fst (on_submit BASE_URL fetch st)))
       = Some ("No se pudo registrar: " ++ reason)
     /\ timers (fst (on_submit BASE_URL fetch st)) = timers st
     /\ hash (fst (on_submit BASE_URL fetch st)) = hash st
     /\ submit_button (form (fst (on_submit BASE_URL fetch st))) = Some false)
  /\ (forall res, fetch (registration_request BASE_URL (els st)) = Responds res ->
      ok res = false -> Http.isJSON res = false ->
      registerMsg (els (fst (on_submit BASE_URL fetch st)))
        = Some ("No se pudo registrar: HTTP "
                  ++ NilZero.string_of_uint (N.to_uint (status res)))
      /\ timers (fst (on_submit BASE_URL fetch st)) = timers st
      /\ hash (fst (on_submit BASE_URL fetch st)) = hash st
      /\ submit_button (form (fst (on_submit BASE_URL fetch st))) = Some false).
Proof.
  intros Hmsg Hbtn Hname Hpass.
  rewrite (on_submit_valid _ _ _ Hmsg Hbtn Hname Hpass). cbn [fst].
  split.
  - intros reason Hf.
    assert (Hcall : snd (UserService.registerUser BASE_URL fetch (Stated.submitted (els st)))
                    = Throws reason).
    { unfold UserService.registerUser, Http.post. apply request_on_failure.
      exact Hf. }
    rewrite Hcall. repeat split; reflexivity.
  - intros res Hr Hok Hj.
    assert (Hcall : snd (UserService.registerUser BASE_URL fetch (Stated.submitted (els st)))
                    = Throws (Http.http_status res)).
    { rewrite <- registerUser_sent in Hr.
      unfold UserService.registerUser, Http.post in *.
      rewrite request_sent in Hr.
      rewrite (request_on_response _ _ _ _ _ Hr), Hok.
      unfold Http.payload_of. rewrite Hj. reflexivity. }
    rewrite Hcall. repeat split; reflexivity.
Qed.

(** X7.  When the form has no submit button, a submission that passes
    validation throws after the old message has been cleared: nothing is
    sent and no timer is set. *)
Theorem submission_without_button (st : state) (m : string) :
  registerMsg (els st) = Some m ->
  submit_button (form st) = None ->
  Stated.blank (username (els st)) = false ->
  Stated.blank (password (els st)) = false ->
  (exists e, snd (on_submit BASE_URL fetch st) = Throws e)
  /\ fst (on_submit BASE_URL fetch st) = set_message EmptyString st
  /\ sent (fst (on_submit BASE_URL fetch st)) = sent st
  /\ timers (fst (on_submit BASE_URL fetch st)) = timers st
  /\ registerMsg (els (fst (on_submit BASE_URL fetch st))) = Some EmptyString.
Proof.
  intros Hmsg Hbtn Hname Hpass.
  unfold on_submit. rewrite Hmsg. cbv zeta.
  cbn [set_message els username password form].
  rewrite !truthy_trimmed, Hname, Hpass, Hbtn. cbn [negb orb fst snd].
  split; [eexists; reflexivity|]. repeat split; reflexivity.
Qed.

(** X8.  Whatever the page and the network, one run of the submit handler
    never changes an input's value or the route, sends at most the one
    registration request, sets at most the one timer to [#/board], and does
    not leave the submit button disabled. *)
Theorem on_submit_frame (st : state) :
  let st' := fst (on_submit BASE_URL fetch st) in
  (username (els st') = username (els st)
   /\ lastName (els st') = lastName (els st)
   /\ age (els st') = age (els st)
   /\ email (els st') = email (els st)
   /\ password (els st') = password (els st)
   /\ confirmPassword (els st') = confirmPassword (els st))
  /\ hash st' = hash st
  /\ (sent st' = sent st
      \/ sent st' = (sent st ++ [registration_request BASE_URL (els st)])%list)
  /\ (timers st' = timers st
      \/ timers st' = (timers st ++ [{| delay := 400; target := "#/board" |}])%list)
  /\ (submit_button (form st) <> Some true ->
      submit_button (form st') <> Some true).
Proof.
  cbv zeta. unfold on_submit.
  destruct (registerMsg (els st)) as [m|] eqn:Hmsg.
  2:{ cbn [fst]. repeat split; auto. }
  cbv zeta. cbn [set_message els username password lastName age email confirmPassword form].
  destruct (negb (truthy (trimmed (username (els st))))
            || negb (truthy (trimmed (password (els st))))) eqn:Hv.
  { cbn [fst]. repeat split; auto. }
  destruct (submit_button (form st)) as [b|] eqn:Hbtn.
  2:{ cbn [fst set_message form]. rewrite Hbtn. repeat split; auto. }
  fold (Stated.submitted (els st)).
  pose proof (registerUser_sent (els st)) as Hrq.
  destruct (UserService.registerUser BASE_URL fetch (Stated.submitted (els st)))
    as [rq [data|X]]; cbn [fst] in Hrq; subst rq; cbn;
    (repeat split; auto; try discriminate).
Qed.

(** X9.  On a page that has [#registerForm] but no [#registerMsg],
    [initHome] still attaches the submit handler, and every submission then
    throws on the handler's first statement: nothing is validated, shown or
    sent. *)
Theorem form_without_message_throws (p : page) (f : form_el) :
  registerForm (doc p) = Some f ->
  registerMsg (register (doc p)) = None ->
  initHome p = Returns {| doc := doc p;
                          listeners := (listeners p ++ [RegisterSubmit])%list |}
  /\ forall h ts rs,
       fst (on_submit BASE_URL fetch (home_state f (doc p) h ts rs))
         = home_state f (doc p) h ts rs
       /\ exists e,
            snd (on_submit BASE_URL fetch (home_state f (doc p) h ts rs)) = Throws e.
Proof.
  intros Hf Hm. split.
  - unfold initHome. cbv zeta. rewrite Hf. reflexivity.
  - intros h ts rs. apply on_submit_without_message. exact Hm.
Qed.

End HomeFurther.

Lemma registration_sends_the_form_witness :
  Stated.blank (Dom.password (Home.els (Samples.home_state " Ana " "secret"))) = false
  /\ Home.sent (fst (Home.on_submit Samples.base Samples.created
                       (Samples.home_state " Ana " "secret")))
     = [ {| Net.url := "http://localhost:8080/api/v1/users";
            Net.method := "POST";
            Net.headers := [("Content-Type", "application/json")];
            Net.body :=
              Some (Js.JObj [ ("firstName", Js.JStr "Ana"); ("lastName", Js.JStr "Lopez");
                              ("age", Js.JStr "30"); ("email", Js.JStr "ana@example.org");
                              ("password", Js.JStr "secret");
                              ("confirmPassword", Js.JStr "secret") ]) |} ].
Proof.
  split; [reflexivity|].
  exact (registration_sends_the_form Samples.base Samples.created
           (Samples.home_state " Ana " "secret") "old message" false
           eq_refl eq_refl eq_refl eq_refl).
Defined.

Lemma registration_failure_message_witness :
  Stated.blank (Dom.username (Home.els (Samples.home_state "Ana" "secret"))) = false
  /\ Dom.registerMsg
       (Home.els (fst (Home.on_submit Samples.base Observe.offline
                         (Samples.home_state "Ana" "secret"))))
     = Some "No se pudo registrar: Failed to fetch"
  /\ Dom.registerMsg
       (Home.els (fst (Home.on_submit Samples.base Observe.unavailable
                         (Samples.home_state "Ana" "secret"))))
     = Some "No se pudo registrar: HTTP 503".
Proof.
  pose proof (registration_failure_message Samples.base Observe.offline
                (Samples.home_state "Ana" "secret") "old message" false
                eq_refl eq_refl eq_refl eq_refl) as Hoff.
  pose proof (registration_failure_message Samples.base Observe.unavailable
                (Samples.home_state "Ana" "secret") "old message" false
                eq_refl eq_refl eq_refl eq_refl) as Hun.
  split; [reflexivity|]. split.
  - exact (proj1 (proj1 Hoff "Failed to fetch" eq_refl)).
  - exact (proj1 (proj2 Hun _ eq_refl eq_refl eq_refl)).
Defined.

Lemma submission_without_button_witness :
  Dom.submit_button (Home.form (Observe.no_button "Ana" "secret")) = None
  /\ Home.sent (fst (Home.on_submit Samples.base Samples.created
                       (Observe.no_button "Ana" "secret"))) = []
  /\ Dom.registerMsg
       (Home.els (fst (Home.on_submit Samples.base Samples.created
                         (Observe.no_button "Ana" "secret"))))
     = Some EmptyString.
Proof.
  pose proof (submission_without_button Samples.base Samples.created
                (Observe.no_button "Ana" "secret") "old message"
                eq_refl eq_refl eq_refl eq_refl) as H.
  split; [reflexivity|]. split.
  - exact (proj1 (proj2 (proj2 H))).
  - exact (proj2 (proj2 (proj2 (proj2 H)))).
Defined.

Lemma on_submit_frame_witness :
  Dom.submit_button (Home.form (Samples.home_state "Ana" "secret")) <> Some true
  /\ Dom.submit_button
       (Home.form (fst (Home.on_submit Samples.base Samples.conflict
                          (Samples.home_state "Ana" "secret")))) <> Some true
  /\ Dom.username
       (Home.els (fst (Home.on_submit Samples.base Samples.created
                         (Samples.home_state "Ana" "secret")))) = Some "Ana".
Proof.
  pose proof (on_submit_frame Samples.base Samples.conflict
                (Samples.home_state "Ana" "secret")) as Hc.
  pose proof (on_submit_frame Samples.base Samples.created
                (Samples.home_state "Ana" "secret")) as Hk.
  cbv zeta in Hc, Hk.
  assert (Hen : Dom.submit_button (Home.form (Samples.home_state "Ana" "secret"))
                <> Some true) by discriminate.
  split; [exact Hen|]. split.
  - exact (proj2 (proj2 (proj2 (proj2 Hc))) Hen).
  - exact (proj1 (proj1 Hk)).
Defined.

Lemma form_without_message_throws_witness :
  Dom.registerMsg (Dom.register (Dom.doc Observe.form_without_message)) = None
  /\ Dom.initHome Observe.form_without_message
     = Js.Returns {| Dom.doc := Dom.doc Observe.form_without_message;
                     Dom.listeners := [Dom.RegisterSubmit] |}
  /\ Home.sent (fst (Home.on_submit Samples.base Samples.created
                       (Observe.home_state {| Dom.submit_button := Some false |}
                          (Dom.doc Observe.form_without_message) "#/home" [] [])))
     = [].
Proof.
  pose proof (form_without_message_throws Samples.base Samples.created
                Observe.form_without_message {| Dom.submit_button := Some false |}
                eq_refl eq_refl) as [Hinit Hsub].
  split; [reflexivity|]. split; [exact Hinit|].
  rewrite (proj1 (Hsub "#/home" [] [])). reflexivity.
Defined.

(* ------------------------------------------------------------------ *)
(** ** The todo board: how the handlers compose *)

Section ReplaceFacts.
Context {A : Type}.
Implicit Types (l : list A) (i : nat).

Lemma replace_at_twice l i (x y : A) :
  i < List.length l ->
  Board.replace_at i x (Board.replace_at i y l) = Board.replace_at i x l.
Proof.
  intro Hi. unfold Board.replace_at.
  assert (Hlen : List.length (firstn i l) = i) by (rewrite length_firstn; lia).
  rewrite firstn_app, Hlen, Nat.sub_diag, firstn_firstn, Nat.min_id.
  cbn [firstn]. rewrite app_nil_r.
  rewrite skipn_app, Hlen.
  rewrite (skipn_all2 (n := S i) (firstn i l)) by lia.
  replace (S i - i) with 1 by lia. reflexivity.
Qed.

Lemma remove_at_cons l i (a : A) :
  Board.remove_at (S i) (a :: l) = a :: Board.remove_at i l.
Proof. reflexivity. Qed.

Lemma replace_at_cons l i (a x : A) :
  Board.replace_at (S i) x (a :: l) = a :: Board.replace_at i x l.
Proof. reflexivity. Qed.

End ReplaceFacts.

Section BoardFurther.
Import Dom Board Observe.

Lemma remove_token_idem (tok : string) (cls : list string) :
  remove_token tok (remove_token tok cls) = remove_token tok cls.
Proof.
  unfold remove_token. induction cls as [|c cls IH]; [reflexivity|].
  cbn [filter]. destruct (negb (String.eqb c tok)) eqn:E; [|exact IH].
  cbn [filter]. rewrite E, IH. reflexivity.
Qed.

(** Forcing a token twice is forcing it once. *)
Lemma toggle_idem (tok : string) (force : bool) (cls : list string) :
  toggle tok (Some force) (toggle tok (Some force) cls) = toggle tok (Some force) cls.
Proof.
  unfold toggle. destruct force.
  - destruct (Str.mem tok cls) eqn:E.
    + rewrite E. reflexivity.
    + rewrite mem_app_single. reflexivity.
  - apply remove_token_idem.
Qed.

Lemma on_click_input (t : target) (st : state) :
  input_value (on_click t st) = input_value st.
Proof.
  unfold on_click. destruct (closest_todo (items st) t) as [[[i li] p]|]; reflexivity.
Qed.


(** X11.  A new item does not disturb the others: a click on an older item
    after the add (one place further down) gives the same board as the
    click before the add. *)
Theorem add_commutes_with_click (t : target) (st : state) :
  Str.trim (input_value st) <> EmptyString ->
  on_click (shifted t) (on_add st) = on_add (on_click t st).
Proof.
  intro Hne. unfold on_add. rewrite on_click_input.
  rewrite (proj2 (is_empty_false _) Hne).
  destruct t as [|i p]; [reflexivity|].
  unfold on_click, shifted, closest_todo. cbn [items nth_error input_value].
  destruct (nth_error (items st) i) as [it|]; [|reflexivity].
  destruct (matches (classes it) "todo"); [|reflexivity].
  cbn [items].
  destruct (matches (own_classes it p) "remove");
    destruct (matches (own_classes it p) "check"); reflexivity.
Qed.

(** X12.  The checkbox branch of the click handler sets the [completed]
    class from the checkbox instead of flipping it, so running it a second
    time on the same target changes nothing more. *)
Theorem checkbox_click_idempotent (st : state) (i : nat) :
  on_click (Inside i PCheckbox) (on_click (Inside i PCheckbox) st)
  = on_click (Inside i PCheckbox) st.
Proof.
  destruct (nth_error (items st) i) as [it|] eqn:Hn.
  - destruct (is_todo it) eqn:Ht.
    + assert (Hi : i < List.length (items st))
        by (apply nth_error_Some; rewrite Hn; discriminate).
      rewrite (on_click_check st i it Hn Ht).
      set (it' := with_classes (toggle "completed" (Some (checked it)) (classes it)) it).
      assert (Ht' : is_todo it' = true).
      { unfold is_todo, it', with_classes. cbn [classes].
        rewrite toggle_other by discriminate. exact Ht. }
      rewrite (on_click_check _ i it').
      * cbn [input_value items]. rewrite replace_at_twice by exact Hi.
        unfold it' at 1 2 3, with_classes. cbn [classes checked html].
        rewrite toggle_idem. reflexivity.
      * cbn [items]. apply nth_error_replace_at_eq, Hi.
      * exact Ht'.
    + assert (Hst : on_click (Inside i PCheckbox) st = st).
      { unfold on_click, closest_todo. rewrite Hn.
        unfold is_todo in Ht. rewrite Ht. reflexivity. }
      rewrite !Hst. reflexivity.
  - assert (Hst : on_click (Inside i PCheckbox) st = st).
    { unfold on_click, closest_todo. rewrite Hn. reflexivity. }
    rewrite !Hst. reflexivity.
Qed.

End BoardFurther.


Lemma add_commutes_with_click_witness :
  Str.trim (Board.input_value (Samples.typing "Pay rent" (Board.items Samples.two_items)))
    <> EmptyString
  /\ Board.on_click (Board.Inside 2 Board.PRemove)
       (Board.on_add (Samples.typing "Pay rent" (Board.items Samples.two_items)))
     = Board.on_add
         (Board.on_click (Board.Inside 1 Board.PRemove)
            (Samples.typing "Pay rent" (Board.items Samples.two_items))).
Proof.
  assert (H : Str.trim (Board.input_value
                          (Samples.typing "Pay rent" (Board.items Samples.two_items)))
              <> EmptyString) by discriminate.
  split; [exact H|].
  exact (add_commutes_with_click (Board.Inside 1 Board.PRemove) _ H).
Defined.

Section SessionFacts.
Import Dom Board Session Observe.









End SessionFacts.

(* ------------------------------------------------------------------ *)
(** ** [initRouter] and loads that settle later *)

Section NavigationFacts.
Import Js Net Router Navigation.









End NavigationFacts.



(* ------------------------------------------------------------------ *)
(** ** Input that is only blanks *)

Section BlankFacts.
Import Observe.

Lemma blank_char_cases (c : ascii) :
  blank_char c = true ->
  c = ascii_of_nat 9 \/ c = ascii_of_nat 10 \/ c = ascii_of_nat 11
  \/ c = ascii_of_nat 12 \/ c = ascii_of_nat 13 \/ c = ascii_of_nat 32.
Proof.
  unfold blank_char. cbv zeta. intro H.
  rewrite <- (ascii_nat_embedding c).
  repeat (apply orb_true_iff in H as [H|H]);
    apply Nat.eqb_eq in H; rewrite H; auto 7.
Qed.

Lemma strip_blank_char (c : ascii) (r : string) :
  blank_char c = true -> Str.strip_one Str.whitespace (String c r) = Some r.
Proof.
  intro H.
  destruct (blank_char_cases c H) as [->|[->|[->|[->|[->| ->]]]]];
    destruct r; reflexivity.
Qed.

Lemma strip_all_blanks (s : string) :
  only_blanks s = true ->
  forall fuel, String.length s <= fuel ->
  Str.strip_all fuel Str.whitespace s = EmptyString.
Proof.
  induction s as [|c r IH]; intros Hb fuel Hlen.
  - destruct fuel; reflexivity.
  - cbn [only_blanks] in Hb. apply andb_true_iff in Hb as [Hc Hr].
    destruct fuel as [|k]; [cbn in Hlen; lia|].
    cbn [Str.strip_all]. rewrite (strip_blank_char c r Hc).
    apply IH; [exact Hr | cbn in Hlen; lia].
Qed.

(** [trim] empties a text of blanks. *)
Lemma trim_only_blanks (s : string) :
  only_blanks s = true -> Str.trim s = EmptyString.
Proof.
  intro H. unfold Str.trim, Str.trimStart.
  rewrite (strip_all_blanks s H) by lia. reflexivity.
Qed.

End BlankFacts.

Section BlankInput.
Import Js Net Dom Observe.

Variable BASE_URL : string.
Variable fetch : Net.request -> outcome.

(** X17.  A first name or a password typed as spaces, tabs or line breaks
    only is treated like an empty one: the submission sends nothing and the
    form shows the validation message. *)
Theorem blanks_do_not_register (st : Home.state) (m name pass : string) :
  registerMsg (Home.els st) = Some m ->
  username (Home.els st) = Some name ->
  password (Home.els st) = Some pass ->
  only_blanks name = true \/ only_blanks pass = true ->
  Home.sent (fst (Home.on_submit BASE_URL fetch st)) = Home.sent st
  /\ registerMsg (Home.els (fst (Home.on_submit BASE_URL fetch st)))
     = Some "Por favor completa usuario y contraseña."
  /\ snd (Home.on_submit BASE_URL fetch st) = Returns tt.
Proof.
  intros Hmsg Hname Hpass Hblank.
  unfold Home.on_submit. rewrite Hmsg. cbv zeta.
  cbn [Home.set_message Home.els username password].
  rewrite Hname, Hpass. cbn [Home.trimmed truthy].
  assert (Hc : negb (negb (Str.is_empty (Str.trim name)))
               || negb (negb (Str.is_empty (Str.trim pass))) = true).
  { destruct Hblank as [H|H]; rewrite (trim_only_blanks _ H);
      [reflexivity | apply orb_true_r]. }
  rewrite Hc. repeat split; reflexivity.
Qed.

(** X18.  A todo typed as spaces, tabs or line breaks only is ignored: the
    list stays as it is and the typed text stays in the input. *)
Theorem blanks_add_nothing (st : Board.state) :
  only_blanks (Board.input_value st) = true ->
  Board.on_add st = st.
Proof.
  intro H. unfold Board.on_add. rewrite (trim_only_blanks _ H). reflexivity.
Qed.

End BlankInput.

Lemma blanks_do_not_register_witness :
  Observe.only_blanks (Str.bytes [32; 9; 10]) = true
  /\ Home.sent (fst (Home.on_submit Samples.base Samples.created
                       (Samples.home_state (Str.bytes [32; 9; 10]) "secret"))) = []
  /\ Dom.registerMsg
       (Home.els (fst (Home.on_submit Samples.base Samples.created
                         (Samples.home_state (Str.bytes [32; 9; 10]) "secret"))))
     = Some Home.validation_message.
Proof.
  pose proof (blanks_do_not_register Samples.base Samples.created
                (Samples.home_state (Str.bytes [32; 9; 10]) "secret")
                "old message" (Str.bytes [32; 9; 10]) "secret"
                eq_refl eq_refl eq_refl (or_introl eq_refl)) as H.
  split; [reflexivity|]. split.
  - exact (proj1 H).
  - exact (proj1 (proj2 H)).
Defined.

Lemma blanks_add_nothing_witness :
  Observe.only_blanks (Str.bytes [32; 32; 9]) = true
  /\ Board.on_add (Samples.typing (Str.bytes [32; 32; 9]) (Board.items Samples.two_items))
     = Samples.typing (Str.bytes [32; 32; 9]) (Board.items Samples.two_items).
Proof.
  split; [reflexivity|].
  exact (blanks_add_nothing
           (Samples.typing (Str.bytes [32; 32; 9]) (Board.items Samples.two_items))
           eq_refl).
Defined.
